(** * The [technology] class of [objects/technologies/source/technology.cpp]

    A shallow embedding of the per-period economic behaviour of one
    technology vintage: cost, logit share, fixed-output and calibration
    reconciliation, production dispatch and emissions bookkeeping.

    Conventions of the embedding.
    - A C++ [double] is a real number ([R]); the development speaks about the
      arithmetic the code writes down, not about rounding, infinities or NaN.
      A quotient with the divisor 0 is an infinity or NaN and so no real
      number: where a method tests its divisor for 0 ([normShare]) the
      quotient is formed by [double_div], which has no result there, and the
      method returns [None] if it ever divides by 0.  The other divisors are
      the effective efficiency, which the code takes to be positive, or are
      compared with 0 before the division; [adjShares] divides by
      [varShareTot] without a test, and the theorems about the share of a
      variable technology assume that [varShareTot] is not 0.
    - [int] (years, periods, indices stored in [ghgNameMap]) is [Z].
    - [std::map<std::string, T>] is [gmap string T]; [std::vector] is [list].
    - The owned pointers [mTechData] and [mCalValue] may be null: they are
      [option]s, and a method that dereferences [mTechData] returns [None]
      when it is null.  A method whose [assert] fails returns [None] too.
    - Calls that a method issues to its collaborators (logger, marketplace,
      dependency finder, output and GHG objects) are returned, in program
      order, as a list of [Effect]s next to the new state.
    - What a method only reads from the outside world ([scenario], [util],
      [Configuration]) is a variable of the section [Model]. *)

From Stdlib Require Import Reals Lra.
From stdpp Require Import gmap strings list.

Local Open Scope R_scope.

(** ** Collaborator objects, as far as the technology observes them *)

(** [ITechnologyInfo]: the getters the technology calls on [mTechData]. *)
Record ITechnologyInfo := {
  getFuelName : string;
  info_getEfficiency : R;
  getEffPenalty : R;
  info_getNonEnergyCost : R;
  getNECostPenalty : R;
  getFMultiplier : R;
  getFuelPrefElasticity : R
}.

(** [ICalData]: both getters take the effective efficiency. *)
Record ICalData := {
  getCalInput : R -> R;
  getCalOutput : R -> R
}.

(** The two classes of output the technology creates. *)
Inductive OutputClass := PrimaryOutputClass | SecondaryOutputClass.

(** [IOutput]: [getValue( aRegionName, aPeriod )] is what [calcSecondaryValue]
    reads. *)
Record IOutput := {
  outputClass : OutputClass;
  output_getName : string;
  getValue : string -> Z -> R
}.

(** [AGHG]: the getters read by [calcSecondaryValue] and [calcEmission].
    [getGHGValue] takes the region, the fuel name, the outputs, the effective
    efficiency and the period. *)
Record AGHG := {
  ghg_getName : string;
  getGHGValue : string -> string -> list IOutput -> R -> Z -> R;
  getEmission : Z -> R;
  getEmissFuel : Z -> R;
  getSequestAmountGeologic : R;
  getSequestAmountNonEngy : R
}.

(** [GDP]: only [getBestScaledGDPperCap] is used. *)
Record GDP := { getBestScaledGDPperCap : Z -> R }.

(** [GlobalTechnologyDatabase::getTechnology( name, year )]; the shared
    pointer it returns may be empty. *)
Record GlobalTechnologyDatabase := {
  getTechnology : string -> Z -> option ITechnologyInfo
}.

(** ** Calls to collaborators *)

Inductive LogLevel := DEBUG | NOTICE | WARNING | ERROR | SEVERE.

(** The pieces streamed into a logger before [endl]. *)
Inductive LogToken :=
| LStr (s : string)
| LNum (x : R).

Inductive Effect :=
| LogLine (logger : string) (level : LogLevel) (line : list LogToken)
| AddToDemand (fuel region : string) (quantity : R) (period : Z)
| AddDependency (sector fuel : string)
| OutputCompleteInit (i : nat) (sector : string) (hasDepFinder : bool)
    (isTechOperating : bool)
| SetPhysicalOutput (i : nat) (primaryOutput : R) (region : string) (period : Z)
| GHGCalcEmission (i : nat) (region fuel : string) (input : R) (period : Z).

(** ** The state of a technology *)

Record technology := {
  mName : string;
  year : Z;
  shrwts : R;
  fuelcost : R;
  techcost : R;
  pMultiplier : R;
  lexp : R;
  share : R;
  input : R;
  fixedOutput : R;
  fixedOutputVal : R;
  mGetGlobalTech : bool;
  note : string;
  mTechData : option ITechnologyInfo;
  mCalValue : option ICalData;
  ghg : list AGHG;
  mOutputs : list IOutput;
  emissmap : gmap string R;
  emfuelmap : gmap string R;
  ghgNameMap : gmap string Z
}.

(** Assignments to single members. *)
Definition set_share (v : R) (t : technology) : technology :=
  {| mName := mName t; year := year t; shrwts := shrwts t;
     fuelcost := fuelcost t; techcost := techcost t;
     pMultiplier := pMultiplier t; lexp := lexp t; share := v;
     input := input t; fixedOutput := fixedOutput t;
     fixedOutputVal := fixedOutputVal t; mGetGlobalTech := mGetGlobalTech t;
     note := note t; mTechData := mTechData t; mCalValue := mCalValue t;
     ghg := ghg t; mOutputs := mOutputs t; emissmap := emissmap t;
     emfuelmap := emfuelmap t; ghgNameMap := ghgNameMap t |}.

Definition set_shrwts (v : R) (t : technology) : technology :=
  {| mName := mName t; year := year t; shrwts := v;
     fuelcost := fuelcost t; techcost := techcost t;
     pMultiplier := pMultiplier t; lexp := lexp t; share := share t;
     input := input t; fixedOutput := fixedOutput t;
     fixedOutputVal := fixedOutputVal t; mGetGlobalTech := mGetGlobalTech t;
     note := note t; mTechData := mTechData t; mCalValue := mCalValue t;
     ghg := ghg t; mOutputs := mOutputs t; emissmap := emissmap t;
     emfuelmap := emfuelmap t; ghgNameMap := ghgNameMap t |}.

Definition set_fuelcost (v : R) (t : technology) : technology :=
  {| mName := mName t; year := year t; shrwts := shrwts t;
     fuelcost := v; techcost := techcost t;
     pMultiplier := pMultiplier t; lexp := lexp t; share := share t;
     input := input t; fixedOutput := fixedOutput t;
     fixedOutputVal := fixedOutputVal t; mGetGlobalTech := mGetGlobalTech t;
     note := note t; mTechData := mTechData t; mCalValue := mCalValue t;
     ghg := ghg t; mOutputs := mOutputs t; emissmap := emissmap t;
     emfuelmap := emfuelmap t; ghgNameMap := ghgNameMap t |}.

Definition set_techcost (v : R) (t : technology) : technology :=
  {| mName := mName t; year := year t; shrwts := shrwts t;
     fuelcost := fuelcost t; techcost := v;
     pMultiplier := pMultiplier t; lexp := lexp t; share := share t;
     input := input t; fixedOutput := fixedOutput t;
     fixedOutputVal := fixedOutputVal t; mGetGlobalTech := mGetGlobalTech t;
     note := note t; mTechData := mTechData t; mCalValue := mCalValue t;
     ghg := ghg t; mOutputs := mOutputs t; emissmap := emissmap t;
     emfuelmap := emfuelmap t; ghgNameMap := ghgNameMap t |}.

Definition set_input (v : R) (t : technology) : technology :=
  {| mName := mName t; year := year t; shrwts := shrwts t;
     fuelcost := fuelcost t; techcost := techcost t;
     pMultiplier := pMultiplier t; lexp := lexp t; share := share t;
     input := v; fixedOutput := fixedOutput t;
     fixedOutputVal := fixedOutputVal t; mGetGlobalTech := mGetGlobalTech t;
     note := note t; mTechData := mTechData t; mCalValue := mCalValue t;
     ghg := ghg t; mOutputs := mOutputs t; emissmap := emissmap t;
     emfuelmap := emfuelmap t; ghgNameMap := ghgNameMap t |}.

Definition set_fixedOutputVal (v : R) (t : technology) : technology :=
  {| mName := mName t; year := year t; shrwts := shrwts t;
     fuelcost := fuelcost t; techcost := techcost t;
     pMultiplier := pMultiplier t; lexp := lexp t; share := share t;
     input := input t; fixedOutput := fixedOutput t;
     fixedOutputVal := v; mGetGlobalTech := mGetGlobalTech t;
     note := note t; mTechData := mTechData t; mCalValue := mCalValue t;
     ghg := ghg t; mOutputs := mOutputs t; emissmap := emissmap t;
     emfuelmap := emfuelmap t; ghgNameMap := ghgNameMap t |}.

Definition set_mTechData (v : option ITechnologyInfo) (t : technology)
  : technology :=
  {| mName := mName t; year := year t; shrwts := shrwts t;
     fuelcost := fuelcost t; techcost := techcost t;
     pMultiplier := pMultiplier t; lexp := lexp t; share := share t;
     input := input t; fixedOutput := fixedOutput t;
     fixedOutputVal := fixedOutputVal t; mGetGlobalTech := mGetGlobalTech t;
     note := note t; mTechData := v; mCalValue := mCalValue t;
     ghg := ghg t; mOutputs := mOutputs t; emissmap := emissmap t;
     emfuelmap := emfuelmap t; ghgNameMap := ghgNameMap t |}.

Definition set_ghg (v : list AGHG) (names : gmap string Z) (t : technology)
  : technology :=
  {| mName := mName t; year := year t; shrwts := shrwts t;
     fuelcost := fuelcost t; techcost := techcost t;
     pMultiplier := pMultiplier t; lexp := lexp t; share := share t;
     input := input t; fixedOutput := fixedOutput t;
     fixedOutputVal := fixedOutputVal t; mGetGlobalTech := mGetGlobalTech t;
     note := note t; mTechData := mTechData t; mCalValue := mCalValue t;
     ghg := v; mOutputs := mOutputs t; emissmap := emissmap t;
     emfuelmap := emfuelmap t; ghgNameMap := names |}.

Definition set_mOutputs (v : list IOutput) (t : technology) : technology :=
  {| mName := mName t; year := year t; shrwts := shrwts t;
     fuelcost := fuelcost t; techcost := techcost t;
     pMultiplier := pMultiplier t; lexp := lexp t; share := share t;
     input := input t; fixedOutput := fixedOutput t;
     fixedOutputVal := fixedOutputVal t; mGetGlobalTech := mGetGlobalTech t;
     note := note t; mTechData := mTechData t; mCalValue := mCalValue t;
     ghg := ghg t; mOutputs := v; emissmap := emissmap t;
     emfuelmap := emfuelmap t; ghgNameMap := ghgNameMap t |}.

Definition set_emissmap (v : gmap string R) (t : technology) : technology :=
  {| mName := mName t; year := year t; shrwts := shrwts t;
     fuelcost := fuelcost t; techcost := techcost t;
     pMultiplier := pMultiplier t; lexp := lexp t; share := share t;
     input := input t; fixedOutput := fixedOutput t;
     fixedOutputVal := fixedOutputVal t; mGetGlobalTech := mGetGlobalTech t;
     note := note t; mTechData := mTechData t; mCalValue := mCalValue t;
     ghg := ghg t; mOutputs := mOutputs t; emissmap := v;
     emfuelmap := emfuelmap t; ghgNameMap := ghgNameMap t |}.

Definition set_emfuelmap (v : gmap string R) (t : technology) : technology :=
  {| mName := mName t; year := year t; shrwts := shrwts t;
     fuelcost := fuelcost t; techcost := techcost t;
     pMultiplier := pMultiplier t; lexp := lexp t; share := share t;
     input := input t; fixedOutput := fixedOutput t;
     fixedOutputVal := fixedOutputVal t; mGetGlobalTech := mGetGlobalTech t;
     note := note t; mTechData := mTechData t; mCalValue := mCalValue t;
     ghg := ghg t; mOutputs := mOutputs t; emissmap := emissmap t;
     emfuelmap := v; ghgNameMap := ghgNameMap t |}.

(** [const double LOGIT_EXP_DEFAULT = -6]. *)
Definition LOGIT_EXP_DEFAULT : R := -6.

(** [technology::getFixedOutputDefault]. *)
Definition getFixedOutputDefault : R := -1.

(** The constructor [technology( aName, aYear )] followed by
    [initElementalMembers]; the containers and owned pointers start empty. *)
Definition new_technology (aName : string) (aYear : Z) : technology :=
  {| mName := aName; year := aYear; shrwts := 1; fuelcost := 0; techcost := 0;
     pMultiplier := 1; lexp := LOGIT_EXP_DEFAULT; share := 0; input := 0;
     fixedOutput := getFixedOutputDefault;
     fixedOutputVal := getFixedOutputDefault; mGetGlobalTech := false;
     note := ""; mTechData := None; mCalValue := None; ghg := [];
     mOutputs := []; emissmap := ∅; emfuelmap := ∅; ghgNameMap := ∅ |}.

(** ** Example objects

    Concrete objects on which the closing examples of this file run the
    methods. *)

Definition example_info (fuel : string) (efficiency elasticity : R)
  : ITechnologyInfo :=
  {| getFuelName := fuel; info_getEfficiency := efficiency;
     getEffPenalty := 0; info_getNonEnergyCost := 2; getNECostPenalty := 0;
     getFMultiplier := 1; getFuelPrefElasticity := elasticity |}.

Definition example_ghg (name : string) (emissFuel : R) : AGHG :=
  {| ghg_getName := name; getGHGValue := fun _ _ _ _ _ => 0;
     getEmission := fun _ => 3; getEmissFuel := fun _ => emissFuel;
     getSequestAmountGeologic := 0; getSequestAmountNonEngy := 0 |}.

Definition example_cal (calOutput : R) : ICalData :=
  {| getCalInput := fun eff => calOutput / eff;
     getCalOutput := fun _ => calOutput |}.

(** A technology of vintage 1990 as it is after parsing and initialisation:
    [weight], [curShare], [fixed] and [fixedVal] fill [shrwts], [share],
    [fixedOutput] and [fixedOutputVal]. *)
Definition example_technology (info : ITechnologyInfo)
    (cal : option ICalData) (gases : list AGHG)
    (weight curShare fixed fixedVal : R) : technology :=
  {| mName := "boiler"; year := 1990; shrwts := weight; fuelcost := 0;
     techcost := 1; pMultiplier := 1; lexp := LOGIT_EXP_DEFAULT;
     share := curShare; input := 0; fixedOutput := fixed;
     fixedOutputVal := fixedVal; mGetGlobalTech := false; note := "";
     mTechData := Some info; mCalValue := cal; ghg := gases; mOutputs := [];
     emissmap := ∅; emfuelmap := ∅; ghgNameMap := ∅ |}.

(** A technology with a fixed output of 40, and one without fixed output that
    holds the whole variable share. *)
Definition example_fixedTech : technology :=
  example_technology (example_info "coal" 1 0) None [] 1 0 40 40.

Definition example_variableTech : technology :=
  example_technology (example_info "gas" 1 0) None [] 1 1 (-1) (-1).

(** A technology configured with a fixed output of 50 at efficiency 0.25. *)
Definition example_fixed50 : technology :=
  example_technology (example_info "coal" 0.25 0) None [] 1 0 50 (-1).

(** A technology with efficiency 0.5 and a share of 0.5. *)
Definition example_coalTech : technology :=
  example_technology (example_info "coal" 0.5 0) None [] 1 0.5 (-1) (-1).

(** A technology whose fuel name was never set: the empty string. *)
Definition example_unnamedFuelTech : technology :=
  example_technology (example_info "" 1 0) None [] 1 0.5 (-1) (-1).

(** A technology with weight 0, share 0.5 and a calibration output of 30. *)
Definition example_calibratedTech : technology :=
  example_technology (example_info "coal" 1 0) (Some (example_cal 30)) []
    0 0.5 (-1) (-1).

(** A technology with two GHGs, whose fuel emissions are 7 and 9. *)
Definition example_twoGasTech : technology :=
  example_technology (example_info "coal" 1 0) None
    [example_ghg "CO2" 7; example_ghg "CH4" 9] 1 0.5 (-1) (-1).

(** The two technologies above as one subsector. *)
Definition example_subsector : list technology :=
  [example_fixedTech; example_variableTech].

(** A technology whose fixed output of 150 is more than a demand of 100. *)
Definition example_oversizedTech : technology :=
  example_technology (example_info "coal" 1 0) None [] 1 0 150 150.

(** A technology whose calibration value asks for a negative input. *)
Definition example_negativeCalTech : technology :=
  example_technology (example_info "coal" 1 0) (Some (example_cal (-5))) []
    1 0.5 (-1) (-1).

(** A technology flagged as global, without data of its own, and a database
    that has data for every technology. *)
Definition example_globalTech : technology :=
  {| mName := "boiler"; year := 1990; shrwts := 1; fuelcost := 0;
     techcost := 0; pMultiplier := 1; lexp := LOGIT_EXP_DEFAULT;
     share := 0; input := 0; fixedOutput := getFixedOutputDefault;
     fixedOutputVal := getFixedOutputDefault; mGetGlobalTech := true;
     note := ""; mTechData := None; mCalValue := None; ghg := [];
     mOutputs := []; emissmap := ∅; emfuelmap := ∅; ghgNameMap := ∅ |}.

Definition example_db : GlobalTechnologyDatabase :=
  {| getTechnology := fun _ _ => Some (example_info "gas" 0.4 0) |}.

(** The default data of a technology: no fuel name, efficiency 1. *)
Definition example_genericInfo (name : string) : ITechnologyInfo :=
  example_info "" 1 0.

(** A marketplace without any price (every price is the marker 1e6), and one
    in which every fuel costs 12. *)
Definition example_getPrice_missing (fuel region : string) (per : Z) : R :=
  1e6.

Definition example_getPrice_high (fuel region : string) (per : Z) : R := 12.

(** Market infos in which every counter is -1. *)
Definition example_getMarketInfo (fuel region : string) (per : Z)
  : option (string -> R) :=
  Some (fun _ => -1).

(** Calibration data that the start of a period leaves as it is. *)
Definition example_initCalc (per : Z) (cal : ICalData) : ICalData := cal.

(** A GDP with a scaled GDP per capita of 1 in every period. *)
Definition example_gdp : GDP := {| getBestScaledGDPperCap := fun _ => 1 |}.

(** A marketplace in which every fuel costs 10. *)
Definition example_getPrice (fuel region : string) (per : Z) : R := 10.

(** A comparison of reals for [util::isEqual]. *)
Definition example_isEqual (a b : R) : bool :=
  if Req_dec_T a b then true else false.

(** Model time of the examples: period [p] is the year [1975 + 15 * p]. *)
Definition example_per_to_yr (p : Z) : Z := (1975 + 15 * p)%Z.

(** Modelled from the spec: [technologies/primary_output.cpp] is not among the
    sources.  A primary output is named after the sector that is passed to its
    constructor and contributes zero to the secondary value ("primary output
    included, contributing zero"; the comment in [calcSecondaryValue] says the
    same). *)
Definition PrimaryOutput_new (aSectorName : string) : IOutput :=
  {| outputClass := PrimaryOutputClass;
     output_getName := aSectorName;
     getValue := fun _ _ => 0 |}.

(** [a / b] on doubles, for a method that must not divide by 0: with the
    divisor 0 the result of the code is an infinity or NaN, for which the
    reals have no value. *)
Definition double_div (a b : R) : option R :=
  if Req_dec_T b 0 then None else Some (a / b).

(** [std::max( a, b )] is [( a < b ) ? b : a]. *)
Definition std_max (a b : R) : R := if Rlt_dec a b then b else a.

(** [std::pow( x, y )] on a positive base [x] is [exp( y * ln x )].  The
    theorems that go through [pow] are stated for a positive base only; on
    other bases [Rpower] and [std::pow] differ. *)
Definition pow (x y : R) : R := Rpower x y.

(** ** The methods *)

Section Model.

(** [util::getSmallNumber()], [util::getLargeNumber()] and
    [util::isEqual( a, b )] of [util/base/include/util.h]. *)
Variable getSmallNumber : R.
Variable getLargeNumber : R.
Variable isEqual : R -> R -> bool.

(** [Marketplace::NO_MARKET_PRICE] and
    [marketplace->getPrice( fuel, region, period )]. *)
Variable NO_MARKET_PRICE : R.
Variable getPrice : string -> string -> Z -> R.

(** [scenario->getModeltime()->getper_to_yr( period )]. *)
Variable getper_to_yr : Z -> Z.

(** [Configuration::getInstance()->getBool( "debugChecking" )]. *)
Variable debugChecking : bool.

(** [new GenericTechnologyInfo( mName )] and [mTechData->completeInit()]. *)
Variable GenericTechnologyInfo_new : string -> ITechnologyInfo.
Variable info_completeInit : ITechnologyInfo -> ITechnologyInfo.

(** [new CO2Emissions()] and [CO2Emissions::getXMLNameStatic()]. *)
Variable CO2Emissions_new : AGHG.
Variable CO2Emissions_getXMLNameStatic : string.

(** *** Effective parameters *)

Definition getEfficiency (t : technology) (aPeriod : Z) : option R :=
  d ← mTechData t;
  Some (info_getEfficiency d * (1 - getEffPenalty d)).

Definition getNonEnergyCost (t : technology) (aPeriod : Z) : option R :=
  d ← mTechData t;
  Some (info_getNonEnergyCost d * (1 + getNECostPenalty d)).

(** *** [calcSecondaryValue] and [calcCost] *)

Definition calcSecondaryValue (aRegionName : string) (aPeriod : Z)
    (t : technology) : option R :=
  d ← mTechData t;
  eff ← getEfficiency t aPeriod;
  let totalValue :=
    fold_left
      (fun acc g =>
         acc - getGHGValue g aRegionName (getFuelName d) (mOutputs t) eff
                 aPeriod)
      (ghg t) 0 in
  Some (fold_left (fun acc o => acc + getValue o aRegionName aPeriod)
          (mOutputs t) totalValue).

(** The local [fuelprice] of [calcCost], with the error line it may log. *)
Definition calcCost_fuelprice (regionName sectorName : string) (per : Z)
    (techName : string) (d : ITechnologyInfo) : R * list Effect :=
  if bool_decide (getFuelName d = "none") || bool_decide (getFuelName d = "")
     || bool_decide (getFuelName d = "renewable")
  then (0, [])
  else
    let fuelprice := getPrice (getFuelName d) regionName per in
    if Req_dec_T fuelprice NO_MARKET_PRICE
    then (getLargeNumber,
          [LogLine "main_log" ERROR
             [LStr "Requested fuel >"; LStr (getFuelName d);
              LStr "< with no price in technology "; LStr techName;
              LStr " in sector "; LStr sectorName;
              LStr " in region "; LStr regionName; LStr "."]])
    else (fuelprice, []).

Definition calcCost (regionName sectorName : string) (per : Z)
    (t : technology) : option (technology * list Effect) :=
  d ← mTechData t;
  let '(fuelprice, log) :=
    calcCost_fuelprice regionName sectorName per (mName t) d in
  eff ← getEfficiency t per;
  nec ← getNonEnergyCost t per;
  let fuelcost' := (fuelprice * getFMultiplier d) / eff in
  let t1 := set_fuelcost fuelcost' t in
  let techcost1 := (fuelcost' + nec) * pMultiplier t1 in
  sv ← calcSecondaryValue regionName per t1;
  let techcost2 := techcost1 - sv in
  Some (set_techcost (std_max techcost2 getSmallNumber) t1, log).

(** *** [calcShare] and [normShare] *)

Definition calcShare (aRegionName aSectorName : string) (aGDP : GDP)
    (aPeriod : Z) (t : technology) : option technology :=
  d ← mTechData t;
  let share1 := shrwts t * pow (techcost t) (lexp t) in
  Some (set_share
          (if Req_dec_T (getFuelPrefElasticity d) 0 then share1
           else share1 * pow (getBestScaledGDPperCap aGDP aPeriod)
                           (getFuelPrefElasticity d))
          t).

Definition normShare (sum : R) (t : technology) : option technology :=
  if Req_dec_T sum 0 then Some (set_share 0 t)
  else quotient ← double_div (share t) sum; Some (set_share quotient t).

(** *** Fixed output *)

Definition resetFixedOutput (per : Z) (t : technology) : technology :=
  if Rle_dec 0 (fixedOutput t) then set_fixedOutputVal (fixedOutput t) t
  else t.

Definition hasNoInputOrOutput (t : technology) : bool :=
  isEqual (fixedOutput t) 0.

Definition getFixedOutput (t : technology) : R :=
  if Req_dec_T (fixedOutputVal t) getFixedOutputDefault then 0
  else fixedOutputVal t.

Definition getFixedInput (aPeriod : Z) (t : technology) : option R :=
  if Req_dec_T (fixedOutputVal t) getFixedOutputDefault then Some 0
  else if bool_decide (year t ≠ getper_to_yr aPeriod) then Some 0
  else eff ← getEfficiency t aPeriod; Some (fixedOutputVal t / eff).

Definition scaleFixedOutput (scaleRatio : R) (t : technology) : technology :=
  if Rle_dec 0 (fixedOutputVal t)
  then set_fixedOutputVal (fixedOutputVal t * scaleRatio) t
  else t.

Definition adjShares (subsecdmd subsecfixedOutput varShareTot : R) (per : Z)
    (t : technology) : technology :=
  if Rlt_dec 0 subsecfixedOutput then
    let remainingDemand :=
      if Rlt_dec (subsecdmd - subsecfixedOutput) 0 then 0
      else subsecdmd - subsecfixedOutput in
    if Rle_dec 0 (fixedOutputVal t) then
      if Rlt_dec 0 subsecdmd then
        let t1 := set_share (fixedOutputVal t / subsecdmd) t in
        if Rlt_dec subsecdmd (fixedOutputVal t1)
        then set_fixedOutputVal subsecfixedOutput t1
        else t1
      else set_share 0 t
    else
      if Rlt_dec 0 subsecdmd then
        set_share (share t * (remainingDemand / subsecdmd) / varShareTot) t
      else set_share 0 t
  else t.

(** *** [production] *)

(** The calls of [calcEmissionsAndOutputs]: every output is told the primary
    output, then every GHG computes its emission from the input. *)
Definition calcEmissionsAndOutputs (aRegionName : string)
    (aInput aPrimaryOutput : R) (aGDP : GDP) (aPeriod : Z) (t : technology)
    : option (list Effect) :=
  let outs :=
    imap (fun i _ => SetPhysicalOutput i aPrimaryOutput aRegionName aPeriod)
      (mOutputs t) in
  match ghg t with
  | [] => Some outs
  | _ :: _ =>
      d ← mTechData t;
      Some (outs ++
            imap (fun i _ =>
                    GHGCalcEmission i aRegionName (getFuelName d) aInput
                      aPeriod)
              (ghg t))
  end.

(** The test that guards [marketplace->addToDemand] in [production]. *)
Definition production_setsDemand (fuelName : string) : bool :=
  bool_decide (fuelName ≠ "renewable")
  && (bool_decide (fuelName ≠ "none") || bool_decide (fuelName = "")).

(** A failed [assert] stops the method: the result is [None]. *)
Definition production (aRegionName aSectorName : string) (aDemand : R)
    (aGDP : GDP) (aPeriod : Z) (t : technology)
    : option (technology * list Effect) :=
  if Rlt_dec aDemand 0 then None
  else
    let primaryOutput := share t * aDemand in
    let log :=
      if Rlt_dec primaryOutput 0
      then [LogLine "main_log" ERROR
              [LStr "Primary output value less than zero for technology ";
               LStr (mName t)]]
      else [] in
    eff ← getEfficiency t aPeriod;
    let t1 := set_input (primaryOutput / eff) t in
    d ← mTechData t1;
    let demand :=
      if production_setsDemand (getFuelName d)
      then [AddToDemand (getFuelName d) aRegionName (input t1) aPeriod]
      else [] in
    calls ← calcEmissionsAndOutputs aRegionName (input t1) primaryOutput
               aGDP aPeriod t1;
    Some (t1, log ++ demand ++ calls).

(** *** Calibration *)

Definition getCalibrationOutput (aPeriod : Z) (t : technology) : option R :=
  match mCalValue t with
  | Some cal =>
      if bool_decide (year t = getper_to_yr aPeriod)
      then eff ← getEfficiency t aPeriod; Some (getCalOutput cal eff)
      else Some 0
  | None => Some 0
  end.

Definition adjustForCalibration (subSectorDemand : R) (regionName : string)
    (period : Z) (t : technology) : option (technology * list Effect) :=
  calOutput ← getCalibrationOutput period t;
  let t1 :=
    if Req_dec_T (shrwts t) 0
    then (if Rlt_dec 0 calOutput then set_shrwts 1 t else t)
    else t in
  let technologyDemand := share t1 * subSectorDemand in
  let t2 :=
    if Rlt_dec 0 technologyDemand
    then set_shrwts (shrwts t1 * (calOutput / technologyDemand)) t1
    else t1 in
  let '(t3, log1) :=
    if Rlt_dec (shrwts t2) 0
    then (set_shrwts 1 t2,
          [LogLine "main_log" WARNING
             [LStr "Share weight is less than zero in technology ";
              LStr (mName t2)];
           LogLine "main_log" WARNING
             [LStr "Share weight was "; LNum (shrwts t2);
              LStr "(reset to 1)"]])
    else (t2, []) in
  let log2 :=
    if debugChecking
    then (if Rlt_dec 1e6 (shrwts t3)
          then [LogLine "main_log" WARNING
                  [LStr "Large share weight in calibration for technology: ";
                   LStr (mName t3)]]
          else [])
    else [] in
  Some (t3, log1 ++ log2).

(** *** [completeInit] *)

(** [aDepFinder] is a pointer that is only tested and passed on:
    [hasDepFinder] says whether it is non-null. *)
Definition completeInit (aSectorName : string) (hasDepFinder : bool)
    (aGlobalTechDB : option GlobalTechnologyDatabase) (t : technology)
    : technology * list Effect :=
  let log :=
    if bool_decide (year t = 0%Z)
    then [LogLine "main_log" ERROR
            [LStr "Technology "; LStr (mName t); LStr " in sector ";
             LStr aSectorName; LStr " has an invalid year attribute."]]
    else [] in
  let data1 :=
    match mGetGlobalTech t, aGlobalTechDB with
    | true, Some db => getTechnology db (mName t) (year t)
    | _, _ => mTechData t
    end in
  let data2 :=
    match data1 with
    | Some d => d
    | None => GenericTechnologyInfo_new (mName t)
    end in
  let data3 := info_completeInit data2 in
  let t1 := set_mTechData (Some data3) t in
  let t2 :=
    match ghgNameMap t1 !! CO2Emissions_getXMLNameStatic with
    | Some _ => t1
    | None =>
        let ghg' := ghg t1 ++ [CO2Emissions_new] in
        set_ghg ghg'
          (<[CO2Emissions_getXMLNameStatic :=
               (Z.of_nat (length ghg') - 1)%Z]> (ghgNameMap t1))
          t1
    end in
  let t3 := set_mOutputs (PrimaryOutput_new aSectorName :: mOutputs t2) t2 in
  let inits :=
    imap (fun i _ =>
            OutputCompleteInit i aSectorName hasDepFinder
              (negb (hasNoInputOrOutput t3)))
      (mOutputs t3) in
  let deps :=
    if hasDepFinder
    then (if negb (hasNoInputOrOutput t3)
          then [AddDependency aSectorName (getFuelName data3)]
          else [])
    else [] in
  let t4 :=
    if Rle_dec 0 (fixedOutput t3)
    then set_fixedOutputVal (fixedOutput t3) t3
    else t3 in
  (t4, log ++ inits ++ deps).

(** *** [calcEmission] *)

(** One pass of the loop body over the GHGs that are left; [mTechData] is
    dereferenced in the body only. *)
Fixpoint calcEmission_loop (aPeriod : Z) (data : option ITechnologyInfo)
    (gases : list AGHG) (maps : gmap string R * gmap string R)
    : option (gmap string R * gmap string R) :=
  match gases with
  | [] => Some maps
  | g :: rest =>
      d ← data;
      let em1 := <[ghg_getName g := getEmission g aPeriod]> (fst maps) in
      let em2 :=
        <[String.append (ghg_getName g) (getFuelName d) :=
            getEmission g aPeriod]> em1 in
      let em3 :=
        <[String.append (ghg_getName g) "sequestGeologic" :=
            getSequestAmountGeologic g]> em2 in
      let em4 :=
        <[String.append (ghg_getName g) "sequestNonEngy" :=
            getSequestAmountNonEngy g]> em3 in
      let ef := <[getFuelName d := getEmissFuel g aPeriod]> (snd maps) in
      calcEmission_loop aPeriod data rest (em4, ef)
  end.

Definition calcEmission (aGoodName : string) (aPeriod : Z) (t : technology)
    : option technology :=
  maps ← calcEmission_loop aPeriod (mTechData t) (ghg t) (∅, ∅);
  Some (set_emfuelmap (snd maps) (set_emissmap (fst maps) t)).

(** *** The calibration steps, in the words of the specification

    The three steps that the specification describes for
    [adjustForCalibration], each as a function on the share weight; they are
    compared with the method below. *)

(** A zero weight with a positive calibration output is bumped to 1. *)
Definition bumpedWeight_spec (weight calOutput : R) : R :=
  if Req_dec_T weight 0
  then (if Rlt_dec 0 calOutput then 1 else weight)
  else weight.

(** A positive technology demand rescales the weight. *)
Definition scaledWeight_spec (weight calOutput technologyDemand : R) : R :=
  if Rlt_dec 0 technologyDemand
  then weight * (calOutput / technologyDemand)
  else weight.

(** A negative weight is reset to 1. *)
Definition resetWeight_spec (weight : R) : R :=
  if Rlt_dec weight 0 then 1 else weight.

(** The two lines logged when a negative weight is reset, and the line of the
    debug check. *)
Definition negativeWeightLog (techName : string) (weight : R) : list Effect :=
  [LogLine "main_log" WARNING
     [LStr "Share weight is less than zero in technology "; LStr techName];
   LogLine "main_log" WARNING
     [LStr "Share weight was "; LNum weight; LStr "(reset to 1)"]].

Definition largeWeightLog (techName : string) : list Effect :=
  [LogLine "main_log" WARNING
     [LStr "Large share weight in calibration for technology: ";
      LStr techName]].

(** *** The index of the GHGs *)

(** The gas names, in the order of the vector [ghg]. *)
Definition ghgNames (t : technology) : list string :=
  ghg_getName <$> ghg t.

(** [ghgNameMap] is the index of [ghg]: a name is mapped to [i] exactly when
    the GHG at position [i] has that name.  The parser keeps the map and the
    vector in this relation; the constructor starts with both empty. *)
Definition ghgNameMap_indexes_ghg (t : technology) : Prop :=
  forall (name : string) (i : Z),
    ghgNameMap t !! name = Some i
    <-> (0 <= i)%Z /\ ghgNames t !! Z.to_nat i = Some name.

(** *** Reading the calls of a method *)

Definition isAddToDemand (e : Effect) : bool :=
  match e with
  | AddToDemand _ _ _ _ => true
  | _ => false
  end.

(** The demands that a list of calls registers on the marketplace. *)
Definition demandCalls (calls : list Effect) : list Effect :=
  List.filter isAddToDemand calls.

(** *** Further methods *)

(** [getTotalGHGCost]: the loop body is the only place that dereferences
    [mTechData]. *)
Definition getTotalGHGCost (aRegionName : string) (aPeriod : Z)
    (t : technology) : option R :=
  match ghg t with
  | [] => Some 0
  | _ :: _ =>
      d ← mTechData t;
      eff ← getEfficiency t aPeriod;
      Some (fold_left
              (fun acc g =>
                 acc + getGHGValue g aRegionName (getFuelName d) (mOutputs t)
                         eff aPeriod)
              (ghg t) 0)
  end.

(** [getInputRequiredForOutput] and [getIntensity] assert a positive
    efficiency. *)
Definition getInputRequiredForOutput (aRequiredOutput : R) (aPeriod : Z)
    (t : technology) : option R :=
  eff ← getEfficiency t aPeriod;
  if Rlt_dec 0 eff then Some (aRequiredOutput / eff) else None.

Definition getIntensity (aPeriod : Z) (t : technology) : option R :=
  eff ← getEfficiency t aPeriod;
  if Rlt_dec 0 eff then Some (1 / eff) else None.

(** [createTechData], called by [XMLParse] for every parameter that belongs
    to the technology's own data. *)
Definition createTechData (t : technology) : technology :=
  {| mName := mName t; year := year t; shrwts := shrwts t;
     fuelcost := fuelcost t; techcost := techcost t;
     pMultiplier := pMultiplier t; lexp := lexp t; share := share t;
     input := input t; fixedOutput := fixedOutput t;
     fixedOutputVal := fixedOutputVal t; mGetGlobalTech := false;
     note := note t;
     mTechData :=
       match mTechData t with
       | Some d => Some d
       | None => Some (GenericTechnologyInfo_new (mName t))
       end;
     mCalValue := mCalValue t;
     ghg := ghg t; mOutputs := mOutputs t; emissmap := emissmap t;
     emfuelmap := emfuelmap t; ghgNameMap := ghgNameMap t |}.

(** [setYear]: an invalid year is reported and not stored. *)
Definition setYear (aYear : Z) (t : technology) : technology * list Effect :=
  if bool_decide (aYear <= 0)%Z
  then (t,
        [LogLine "main_log" ERROR
           [LStr "Invalid year passed to set year for technology ";
            LStr (mName t); LStr "."]])
  else ({| mName := mName t; year := aYear; shrwts := shrwts t;
           fuelcost := fuelcost t; techcost := techcost t;
           pMultiplier := pMultiplier t; lexp := lexp t; share := share t;
           input := input t; fixedOutput := fixedOutput t;
           fixedOutputVal := fixedOutputVal t;
           mGetGlobalTech := mGetGlobalTech t; note := note t;
           mTechData := mTechData t; mCalValue := mCalValue t;
           ghg := ghg t; mOutputs := mOutputs t; emissmap := emissmap t;
           emfuelmap := emfuelmap t; ghgNameMap := ghgNameMap t |},
        []).

Definition scaleShareWeight (scaleValue : R) (t : technology) : technology :=
  set_shrwts (shrwts t * scaleValue) t.

Definition setShareWeight (shareWeightValue : R) (t : technology)
  : technology :=
  set_shrwts shareWeightValue t.

Definition setTechShare (shareIn : R) (t : technology) : technology :=
  set_share shareIn t.

Definition getCalibrationStatus (t : technology) : bool :=
  match mCalValue t with
  | Some _ => true
  | None => false
  end.

Definition outputFixed (t : technology) : bool :=
  getCalibrationStatus t
  || (if Rle_dec 0 (fixedOutput t) then true else false)
  || (if Req_dec_T (shrwts t) 0 then true else false).

Definition techAvailable (t : technology) : bool :=
  if negb (getCalibrationStatus t)
     && ((if Rle_dec 0 (fixedOutput t) then true else false)
         || (if Req_dec_T (shrwts t) 0 then true else false))
  then false
  else true.

Definition getCalibrationInput (aPeriod : Z) (t : technology) : option R :=
  match mCalValue t with
  | Some cal =>
      if bool_decide (year t = getper_to_yr aPeriod)
      then eff ← getEfficiency t aPeriod; Some (getCalInput cal eff)
      else Some 0
  | None => Some 0
  end.

(** [getNumbGHGs]: the number of keys of [ghgNameMap]
    ([util::getKeys] returns one name for each key). *)
Definition getNumbGHGs (t : technology) : Z :=
  Z.of_nat (size (ghgNameMap t)).

(** The copy constructor, which [clone] calls: [copy] on a technology whose
    members are default-constructed.  [copy] assigns every member except
    [note], which stays the empty string.  The collaborators are cloned; a
    clone is observed as its original is, so it is the same record. *)
Definition clone (techIn : technology) : technology :=
  {| mName := mName techIn; year := year techIn; shrwts := shrwts techIn;
     fuelcost := fuelcost techIn; techcost := techcost techIn;
     pMultiplier := pMultiplier techIn; lexp := lexp techIn;
     share := share techIn; input := input techIn;
     fixedOutput := fixedOutput techIn;
     fixedOutputVal := fixedOutputVal techIn;
     mGetGlobalTech := mGetGlobalTech techIn; note := "";
     mTechData := mTechData techIn; mCalValue := mCalValue techIn;
     ghg := ghg techIn; mOutputs := mOutputs techIn;
     emissmap := emissmap techIn; emfuelmap := emfuelmap techIn;
     ghgNameMap := ghgNameMap techIn |}.

(** *** [initCalc] *)

(** [mCalValue->initCalc( aDemographics, aPeriod )], for the demographics of
    the region. *)
Variable ICalData_initCalc : Z -> ICalData -> ICalData.

(** The calls of [initCalc] to the GHGs and the outputs. *)
Inductive InitCall :=
| GHGInitCalc (i : nat) (region fuel : string) (period : Z)
| OutputInitCalc (i : nat) (region : string) (period : Z).

Definition set_mCalValue (v : option ICalData) (t : technology)
  : technology :=
  {| mName := mName t; year := year t; shrwts := shrwts t;
     fuelcost := fuelcost t; techcost := techcost t;
     pMultiplier := pMultiplier t; lexp := lexp t; share := share t;
     input := input t; fixedOutput := fixedOutput t;
     fixedOutputVal := fixedOutputVal t; mGetGlobalTech := mGetGlobalTech t;
     note := note t; mTechData := mTechData t; mCalValue := v;
     ghg := ghg t; mOutputs := mOutputs t; emissmap := emissmap t;
     emfuelmap := emfuelmap t; ghgNameMap := ghgNameMap t |}.

Definition initCalc (aRegionName aSectorName : string) (aPeriod : Z)
    (t : technology) : option (technology * (list Effect * list InitCall)) :=
  let t1 := set_mCalValue (ICalData_initCalc aPeriod <$> mCalValue t) t in
  checked ←
    match mCalValue t1 with
    | Some cal =>
        eff ← getEfficiency t1 aPeriod;
        if Rlt_dec (getCalInput cal eff) 0
        then Some (set_mCalValue None t1,
                   [LogLine "main_log" DEBUG
                      [LStr "Negative calibration value for technology ";
                       LStr (mName t1); LStr ". Calibration removed."]])
        else Some (t1, [])
    | None => Some (t1, [])
    end;
  let t2 := fst checked in
  gases ←
    match ghg t2 with
    | [] => Some []
    | _ :: _ =>
        d ← mTechData t2;
        Some (imap (fun i _ =>
                      GHGInitCalc i aRegionName (getFuelName d) aPeriod)
                (ghg t2))
    end;
  Some (t2,
        (snd checked,
         gases
         ++ imap (fun i _ => OutputInitCalc i aRegionName aPeriod)
              (mOutputs t2))).

(** *** [tabulateFixedDemands] *)

(** [marketplace->getMarketInfo( fuel, region, period, false )]: null when
    the fuel has no market; otherwise the info object, read through
    [getDouble( key, false )]. *)
Variable getMarketInfo : string -> string -> Z -> option (string -> R).

(** [marketInfo->setDouble( key, value )]. *)
Inductive InfoCall :=
| SetDouble (key : string) (value : R).

Definition tabulateFixedDemands (regionName : string) (period : Z)
    (t : technology) : option (list InfoCall) :=
  d ← mTechData t;
  match getMarketInfo (getFuelName d) regionName period with
  | Some getDouble =>
      if outputFixed t then
        inputs ←
          (if getCalibrationStatus t
           then calInput ← getCalibrationInput period t; Some (calInput, 0)
           else if Rle_dec 0 (fixedOutput t)
                then fixedInput ← getFixedInput period t;
                     Some (fixedInput, fixedInput)
                else Some (0, 0));
        Some [SetDouble "calDemand"
                (std_max (getDouble "calDemand") 0 + fst inputs);
              SetDouble "calFixedDemand"
                (std_max (getDouble "calFixedDemand") 0 + snd inputs)]
      else Some [SetDouble "calDemand" (-1)]
  | None => Some []
  end.

(** *** The sums that the subsector passes to a technology *)

(** The sum of the shares of the technologies of a subsector. *)
Definition sumShares (techs : list technology) : R :=
  foldr (fun t acc => share t + acc) 0 techs.

(** The fixed output of the technologies that [adjShares] treats as fixed. *)
Definition sumFixedOutput (techs : list technology) : R :=
  foldr (fun t acc =>
           (if Rle_dec 0 (fixedOutputVal t) then fixedOutputVal t else 0)
           + acc)
    0 techs.

(** The shares of the technologies that [adjShares] treats as variable. *)
Definition sumVariableShares (techs : list technology) : R :=
  foldr (fun t acc =>
           (if Rle_dec 0 (fixedOutputVal t) then 0 else share t) + acc)
    0 techs.

(** ** Properties of the share and fixed-output methods *)

(** C6: [normShare( 0 )] sets the share to exactly 0 whatever it was before,
    and does so without dividing: a division by 0 would leave no result.
    With any nonzero [sum] the share is divided by [sum].  Nothing else
    changes, and the method never divides by 0. *)
Theorem normShare_zero_or_divide (sum : R) (t : technology) :
  normShare 0 t = Some (set_share 0 t) /\
  double_div (share t) 0 = None /\
  (sum <> 0 -> normShare sum t = Some (set_share (share t / sum) t)) /\
  is_Some (normShare sum t).
Proof.
  unfold normShare, double_div. split; [| split; [| split]].
  - destruct (Req_dec_T 0 0) as [_ | Hne]; [reflexivity | lra].
  - destruct (Req_dec_T 0 0) as [_ | Hne]; [reflexivity | lra].
  - intros Hsum.
    destruct (Req_dec_T sum 0) as [Heq | _]; [contradiction | reflexivity].
  - destruct (Req_dec_T sum 0) as [_ | _]; eexists; reflexivity.
Qed.

(** C9: with [subsecfixedOutput <= 0] the call of [adjShares] changes nothing:
    the technology, and so its share and its [fixedOutputVal], is returned as
    it was, whatever the other arguments are. *)
Theorem adjShares_without_fixed_output_is_noop
    (subsecdmd subsecfixedOutput varShareTot : R) (per : Z) (t : technology) :
  subsecfixedOutput <= 0 ->
  adjShares subsecdmd subsecfixedOutput varShareTot per t = t /\
  share (adjShares subsecdmd subsecfixedOutput varShareTot per t) = share t /\
  fixedOutputVal (adjShares subsecdmd subsecfixedOutput varShareTot per t)
  = fixedOutputVal t.
Proof.
  intros Hle. unfold adjShares.
  destruct (Rlt_dec 0 subsecfixedOutput) as [Hlt | _]; [lra | auto].
Qed.

(** The remaining demand of [adjShares] is [max( demand - fixed, 0 )]. *)
Lemma remainingDemand_Rmax (subsecdmd subsecfixedOutput : R) :
  (if Rlt_dec (subsecdmd - subsecfixedOutput) 0 then 0
   else subsecdmd - subsecfixedOutput)
  = Rmax (subsecdmd - subsecfixedOutput) 0.
Proof.
  destruct (Rlt_dec (subsecdmd - subsecfixedOutput) 0) as [Hneg | Hpos].
  - rewrite Rmax_right; lra.
  - rewrite Rmax_left; lra.
Qed.

(** The share that [adjShares] leaves, by the cases of the code. *)
Lemma adjShares_share (subsecdmd subsecfixedOutput varShareTot : R) (per : Z)
    (t : technology) :
  0 < subsecfixedOutput ->
  share (adjShares subsecdmd subsecfixedOutput varShareTot per t)
  = if Rlt_dec 0 subsecdmd
    then (if Rle_dec 0 (fixedOutputVal t)
          then fixedOutputVal t / subsecdmd
          else share t * (Rmax (subsecdmd - subsecfixedOutput) 0 / subsecdmd)
               / varShareTot)
    else 0.
Proof.
  intros Hfix. unfold adjShares. rewrite remainingDemand_Rmax.
  destruct (Rlt_dec 0 subsecfixedOutput) as [_ | Hn]; [| lra].
  destruct (Rle_dec 0 (fixedOutputVal t)) as [Hf | Hv];
    destruct (Rlt_dec 0 subsecdmd) as [Hd | Hd]; simpl; try reflexivity.
  destruct (Rlt_dec subsecdmd (fixedOutputVal t)); reflexivity.
Qed.

(** C1: in a subsector with positive fixed output [adjShares] gives a
    technology with fixed output ([fixedOutputVal >= 0]) the share
    [fixedOutputVal / subsecdmd] when the demand is positive, and 0 when the
    demand is 0 (or below); it rescales the share of a variable technology
    ([fixedOutputVal < 0]) to
    [share * ( max( subsecdmd - subsecfixedOutput, 0 ) / subsecdmd ) /
    varShareTot] when the demand is positive and [varShareTot] is not 0, and
    to 0 when the demand is 0 (or below).  With demand 100, fixed output 40
    and variable share total 1, a technology fixed at 40 gets the share 0.4
    and a variable technology of share 1 gets 0.6. *)
Theorem adjShares_fixed_and_variable_shares
    (subsecdmd subsecfixedOutput varShareTot : R) (per : Z) (t : technology) :
  0 < subsecfixedOutput ->
  let t' := adjShares subsecdmd subsecfixedOutput varShareTot per t in
  (0 <= fixedOutputVal t ->
   (0 < subsecdmd -> share t' = fixedOutputVal t / subsecdmd) /\
   (subsecdmd <= 0 -> share t' = 0)) /\
  (fixedOutputVal t < 0 ->
   (0 < subsecdmd -> varShareTot <> 0 ->
    share t' = share t * (Rmax (subsecdmd - subsecfixedOutput) 0 / subsecdmd)
               / varShareTot) /\
   (subsecdmd <= 0 -> share t' = 0)) /\
  (fixedOutputVal t = 40 -> share (adjShares 100 40 1 per t) = 0.4) /\
  (fixedOutputVal t < 0 -> share t = 1 ->
   share (adjShares 100 40 1 per t) = 0.6).
Proof.
  intros Hfix t'. subst t'.
  rewrite (adjShares_share subsecdmd subsecfixedOutput varShareTot per t Hfix).
  assert (H40 : 0 < 40) by lra.
  rewrite !(adjShares_share 100 40 1 per t H40).
  destruct (Rlt_dec 0 100) as [_ | Hn]; [| lra].
  destruct (Rlt_dec 0 subsecdmd) as [Hd | Hd];
    destruct (Rle_dec 0 (fixedOutputVal t)) as [Hf | Hv];
    repeat split; intros; try reflexivity; try lra.
  all: match goal with Hs : share _ = 1 |- _ => rewrite Hs end.
  all: rewrite Rmax_left by lra; lra.
Qed.

(** C7: [getFixedInput] is [fixedOutputVal / effective efficiency] when a fixed
    output is set ([fixedOutputVal] is not the default -1) and the period is
    that of the vintage year; it is 0 in every other period and when no fixed
    output is set.  A technology configured with [fixedOutput = 50] and an
    effective efficiency of 0.25 has, once [resetFixedOutput] has copied the
    configured value, the fixed input 200 in its vintage year and 0 in any
    other period. *)
Theorem getFixedInput_vintage_year (aPeriod : Z) (t : technology) :
  (forall d, mTechData t = Some d ->
     fixedOutputVal t <> getFixedOutputDefault ->
     year t = getper_to_yr aPeriod ->
     getFixedInput aPeriod t
     = Some (fixedOutputVal t
             / (info_getEfficiency d * (1 - getEffPenalty d)))) /\
  (year t <> getper_to_yr aPeriod -> getFixedInput aPeriod t = Some 0) /\
  (fixedOutputVal t = getFixedOutputDefault ->
   getFixedInput aPeriod t = Some 0) /\
  (forall d per, mTechData t = Some d ->
     fixedOutput t = 50 ->
     info_getEfficiency d * (1 - getEffPenalty d) = 0.25 ->
     (year t = getper_to_yr aPeriod ->
      getFixedInput aPeriod (resetFixedOutput per t) = Some 200) /\
     (year t <> getper_to_yr aPeriod ->
      getFixedInput aPeriod (resetFixedOutput per t) = Some 0)).
Proof.
  unfold getFixedInput, getEfficiency. split; [| split; [| split]].
  - intros d Hd Hset Hyear. rewrite Hd. simpl.
    destruct (Req_dec_T (fixedOutputVal t) getFixedOutputDefault); [done |].
    rewrite bool_decide_eq_false_2; [reflexivity | intros Hne; done].
  - intros Hyear.
    destruct (Req_dec_T (fixedOutputVal t) getFixedOutputDefault); [done |].
    rewrite bool_decide_eq_true_2; done.
  - intros Hdef.
    destruct (Req_dec_T (fixedOutputVal t) getFixedOutputDefault); done.
  - intros d per Hd Hspec Heff. unfold resetFixedOutput.
    destruct (Rle_dec 0 (fixedOutput t)) as [_ | Hn]; [| lra]. simpl.
    destruct (Req_dec_T (fixedOutput t) getFixedOutputDefault) as [He | _].
    { unfold getFixedOutputDefault in He. lra. }
    split; intros Hyear.
    + rewrite bool_decide_eq_false_2; [| intros Hne; done].
      rewrite Hd. simpl. rewrite Heff, Hspec. f_equal. lra.
    + rewrite bool_decide_eq_true_2; done.
Qed.

(** ** Properties of the cost computation *)

Lemma std_max_Rmax (a b : R) : std_max a b = Rmax a b.
Proof.
  unfold std_max. destruct (Rlt_dec a b) as [Hlt | Hge].
  - rewrite Rmax_right; lra.
  - rewrite Rmax_left; lra.
Qed.

Lemma std_max_lower_bound (a b : R) : b <= std_max a b.
Proof. unfold std_max. destruct (Rlt_dec a b); lra. Qed.

(** The fuel price that [calcCost] uses: 0 for the fuels that are not priced,
    the large number when the market has no price, the market price
    otherwise. *)
Lemma calcCost_fuelprice_cases (regionName sectorName : string) (per : Z)
    (techName : string) (d : ITechnologyInfo) :
  let fuelprice :=
    fst (calcCost_fuelprice regionName sectorName per techName d) in
  (getFuelName d = "none" \/ getFuelName d = "" \/ getFuelName d = "renewable"
   -> fuelprice = 0) /\
  (getFuelName d <> "none" -> getFuelName d <> "" ->
   getFuelName d <> "renewable" ->
   (getPrice (getFuelName d) regionName per = NO_MARKET_PRICE ->
    fuelprice = getLargeNumber) /\
   (getPrice (getFuelName d) regionName per <> NO_MARKET_PRICE ->
    fuelprice = getPrice (getFuelName d) regionName per)).
Proof.
  unfold calcCost_fuelprice. split.
  - intros [Hf | [Hf | Hf]]; rewrite Hf; reflexivity.
  - intros Hnone Hempty Hren.
    rewrite !bool_decide_eq_false_2 by assumption. simpl.
    destruct (Req_dec_T (getPrice (getFuelName d) regionName per)
                NO_MARKET_PRICE); split; intros; simpl; done.
Qed.

(** Without GHG values and output values the secondary value is 0. *)
Lemma calcSecondaryValue_no_values (aRegionName : string) (aPeriod : Z)
    (t : technology) (d : ITechnologyInfo) :
  mTechData t = Some d ->
  (forall g fuel outs eff, g ∈ ghg t ->
     getGHGValue g aRegionName fuel outs eff aPeriod = 0) ->
  (forall o, o ∈ mOutputs t -> getValue o aRegionName aPeriod = 0) ->
  calcSecondaryValue aRegionName aPeriod t = Some 0.
Proof.
  intros Hd Hghg Hout. unfold calcSecondaryValue, getEfficiency.
  rewrite Hd. simpl. f_equal.
  assert (Hg : forall (l : list AGHG) acc,
             (forall g, g ∈ l -> g ∈ ghg t) ->
             fold_left
               (fun acc g =>
                  acc - getGHGValue g aRegionName (getFuelName d) (mOutputs t)
                          (info_getEfficiency d * (1 - getEffPenalty d))
                          aPeriod) l acc = acc).
  { induction l as [| g l IH]; intros acc Hin; simpl; [reflexivity |].
    rewrite Hghg by (apply Hin; left).
    rewrite IH by (intros g' Hg'; apply Hin; right; exact Hg'). lra. }
  rewrite Hg by auto.
  assert (Ho : forall (l : list IOutput) acc,
             (forall o, o ∈ l -> o ∈ mOutputs t) ->
             fold_left (fun acc o => acc + getValue o aRegionName aPeriod)
               l acc = acc).
  { induction l as [| o l IH]; intros acc Hin; simpl; [reflexivity |].
    rewrite Hout by (apply Hin; left).
    rewrite IH by (intros o' Ho'; apply Hin; right; exact Ho'). lra. }
  apply Ho. auto.
Qed.

(** What [calcCost] stores, in terms of the technology it starts from. *)
Lemma calcCost_result (regionName sectorName : string) (per : Z)
    (t : technology) (d : ITechnologyInfo) (sv : R) :
  mTechData t = Some d ->
  calcSecondaryValue regionName per t = Some sv ->
  let fuelprice :=
    fst (calcCost_fuelprice regionName sectorName per (mName t) d) in
  let fuelCost :=
    fuelprice * getFMultiplier d
    / (info_getEfficiency d * (1 - getEffPenalty d)) in
  let totalCost :=
    (fuelCost + info_getNonEnergyCost d * (1 + getNECostPenalty d))
    * pMultiplier t - sv in
  calcCost regionName sectorName per t
  = Some (set_techcost (std_max totalCost getSmallNumber)
            (set_fuelcost fuelCost t),
          snd (calcCost_fuelprice regionName sectorName per (mName t) d)).
Proof.
  intros Hd Hsv. unfold calcCost, getEfficiency, getNonEnergyCost.
  rewrite Hd. simpl.
  destruct (calcCost_fuelprice regionName sectorName per (mName t) d)
    as [fuelprice log].
  simpl.
  change (calcSecondaryValue regionName per (set_fuelcost _ t))
    with (calcSecondaryValue regionName per t).
  rewrite Hsv. reflexivity.
Qed.

(** C2: [calcCost] stores [fuelCost = fuelPrice * fuelMultiplier /
    ( rawEfficiency * ( 1 - efficiencyPenalty ) )] and, for [totalCost],
    [( fuelCost + rawNonEnergyCost * ( 1 + nonEnergyCostPenalty ) ) *
    priceMultiplier] minus the net secondary value, floored at the small
    number: with a positive small number the total cost is never zero or
    negative.  With fuel price 10, efficiency 0.5, fuel multiplier 1,
    non-energy cost 2, price multiplier 1, no penalties and no GHG or output
    values (and a small number that is at most 22), [fuelCost] is 20 and
    [totalCost] is 22. *)
Theorem calcCost_fuel_and_total_cost (regionName sectorName : string)
    (per : Z) (t : technology) (d : ITechnologyInfo) (sv : R) :
  mTechData t = Some d ->
  calcSecondaryValue regionName per t = Some sv ->
  0 < getSmallNumber ->
  let fuelprice :=
    fst (calcCost_fuelprice regionName sectorName per (mName t) d) in
  let fuelCost :=
    fuelprice * getFMultiplier d
    / (info_getEfficiency d * (1 - getEffPenalty d)) in
  let totalCost :=
    (fuelCost + info_getNonEnergyCost d * (1 + getNECostPenalty d))
    * pMultiplier t - sv in
  exists t' log,
    calcCost regionName sectorName per t = Some (t', log) /\
    fuelcost t' = fuelCost /\
    techcost t' = Rmax totalCost getSmallNumber /\
    0 < techcost t' /\
    (getFuelName d <> "none" -> getFuelName d <> "" ->
     getFuelName d <> "renewable" ->
     getPrice (getFuelName d) regionName per = 10 ->
     NO_MARKET_PRICE <> 10 ->
     info_getEfficiency d = 0.5 -> getEffPenalty d = 0 ->
     getFMultiplier d = 1 ->
     info_getNonEnergyCost d = 2 -> getNECostPenalty d = 0 ->
     pMultiplier t = 1 -> sv = 0 -> getSmallNumber <= 22 ->
     fuelcost t' = 20 /\ techcost t' = 22).
Proof.
  intros Hd Hsv Hsmall fuelprice fuelCost totalCost.
  eexists _, _. split.
  { exact (calcCost_result regionName sectorName per t d sv Hd Hsv). }
  cbn [fuelcost techcost set_techcost set_fuelcost].
  rewrite std_max_Rmax. split; [reflexivity |].
  split; [reflexivity |]. split.
  { eapply Rlt_le_trans; [exact Hsmall | apply Rmax_r]. }
  intros Hnone Hempty Hren Hprice Hno Heff Hpen Hmul Hne Hnepen Hpm Hsv0
    Hs22.
  destruct (calcCost_fuelprice_cases regionName sectorName per (mName t) d)
    as [_ Hpriced].
  destruct (Hpriced Hnone Hempty Hren) as [_ Hmarket].
  assert (Hfp : fuelprice = 10).
  { subst fuelprice. rewrite Hmarket; [exact Hprice | congruence]. }
  assert (Hfc : fuelCost = 20).
  { subst fuelCost. rewrite Hfp, Hmul, Heff, Hpen. lra. }
  assert (Htc : totalCost = 22).
  { subst totalCost. rewrite Hfc, Hne, Hnepen, Hpm, Hsv0. lra. }
  split; [exact Hfc |]. fold fuelprice fuelCost totalCost.
  rewrite Htc. apply Rmax_left. lra.
Qed.

(** ** Properties of the share computation *)

(** A power with a negative exponent decreases strictly on positive bases. *)
Lemma pow_negative_exponent_decreasing (x y e : R) :
  e < 0 -> 0 < x -> x < y -> pow y e < pow x e.
Proof.
  intros He Hx Hxy. unfold pow, Rpower. apply exp_increasing.
  assert (Hln : ln x < ln y) by (apply ln_increasing; lra).
  nra.
Qed.

Lemma pow_positive (x e : R) : 0 < pow x e.
Proof. unfold pow, Rpower. apply exp_pos. Qed.

(** The share that [calcShare] stores. *)
Lemma calcShare_result (aRegionName aSectorName : string) (aGDP : GDP)
    (aPeriod : Z) (t : technology) (d : ITechnologyInfo) :
  mTechData t = Some d ->
  calcShare aRegionName aSectorName aGDP aPeriod t
  = Some (set_share
            (if Req_dec_T (getFuelPrefElasticity d) 0
             then shrwts t * pow (techcost t) (lexp t)
             else shrwts t * pow (techcost t) (lexp t)
                  * pow (getBestScaledGDPperCap aGDP aPeriod)
                      (getFuelPrefElasticity d))
            t).
Proof. intros Hd. unfold calcShare. rewrite Hd. reflexivity. Qed.

(** C4: with a positive share weight and a negative logit exponent the
    unnormalized share of [calcShare],
    [shrwts * techcost ^ lexp] times the GDP factor when there is a fuel
    preference elasticity, decreases strictly when the (positive) total cost
    grows and everything else stays as it is; with a share weight of 0 the
    share is 0 at every positive total cost. *)
Theorem calcShare_decreasing_in_total_cost (aRegionName aSectorName : string)
    (aGDP : GDP) (aPeriod : Z) (t : technology) (d : ITechnologyInfo) :
  mTechData t = Some d ->
  (getFuelPrefElasticity d <> 0 -> 0 < getBestScaledGDPperCap aGDP aPeriod) ->
  (0 < shrwts t -> lexp t < 0 ->
   forall cost1 cost2, 0 < cost1 -> cost1 < cost2 ->
     exists t1 t2,
       calcShare aRegionName aSectorName aGDP aPeriod (set_techcost cost1 t)
       = Some t1 /\
       calcShare aRegionName aSectorName aGDP aPeriod (set_techcost cost2 t)
       = Some t2 /\
       share t2 < share t1) /\
  (getFuelPrefElasticity d = 0 ->
   forall cost, 0 < cost ->
     exists t',
       calcShare aRegionName aSectorName aGDP aPeriod (set_techcost cost t)
       = Some t' /\
       share t' = shrwts t * Rpower cost (lexp t)) /\
  (shrwts t = 0 ->
   forall cost, 0 < cost ->
     exists t',
       calcShare aRegionName aSectorName aGDP aPeriod (set_techcost cost t)
       = Some t' /\
       share t' = 0).
Proof.
  intros Hd Hgdp. split; [| split].
  - intros Hw He cost1 cost2 Hpos Hlt.
    eexists _, _. split; [| split].
    + apply calcShare_result. exact Hd.
    + apply calcShare_result. exact Hd.
    + cbn [share set_share set_techcost shrwts techcost lexp].
      pose proof (pow_negative_exponent_decreasing cost1 cost2 (lexp t)
                    He Hpos Hlt) as Hdec.
      destruct (Req_dec_T (getFuelPrefElasticity d) 0) as [_ | _].
      * apply Rmult_lt_compat_l; assumption.
      * apply Rmult_lt_compat_r; [apply pow_positive |].
        apply Rmult_lt_compat_l; assumption.
  - intros Hzero cost Hpos. eexists. split.
    + apply calcShare_result. exact Hd.
    + cbn [share set_share set_techcost shrwts techcost lexp].
      destruct (Req_dec_T (getFuelPrefElasticity d) 0); [reflexivity | done].
  - intros Hw cost Hpos. eexists. split.
    + apply calcShare_result. exact Hd.
    + cbn [share set_share set_techcost shrwts techcost lexp].
      rewrite Hw.
      destruct (Req_dec_T (getFuelPrefElasticity d) 0); lra.
Qed.

(** ** Properties of the calibration *)

(** [adjustForCalibration] performs the three steps of the specification on
    the share weight, and logs accordingly. *)
Lemma adjustForCalibration_result (subSectorDemand : R) (regionName : string)
    (period : Z) (t : technology) (calOutput : R) :
  getCalibrationOutput period t = Some calOutput ->
  let scaled :=
    scaledWeight_spec (bumpedWeight_spec (shrwts t) calOutput) calOutput
      (share t * subSectorDemand) in
  exists t',
    adjustForCalibration subSectorDemand regionName period t
    = Some (t',
            (if Rlt_dec scaled 0 then negativeWeightLog (mName t) scaled
             else [])
            ++ (if debugChecking
                then (if Rlt_dec 1e6 (resetWeight_spec scaled)
                      then largeWeightLog (mName t) else [])
                else [])) /\
    shrwts t' = resetWeight_spec scaled /\
    share t' = share t.
Proof.
  intros Hcal scaled. subst scaled.
  unfold adjustForCalibration, scaledWeight_spec, bumpedWeight_spec,
    resetWeight_spec.
  rewrite Hcal. cbn [mbind option_bind].
  destruct (Req_dec_T (shrwts t) 0) as [Hz | Hz];
    [destruct (Rlt_dec 0 calOutput) as [Hc | Hc] |];
    cbn [share set_shrwts shrwts];
    (destruct (Rlt_dec 0 (share t * subSectorDemand)) as [Hd | Hd];
     cbn [share set_shrwts shrwts mName];
     match goal with
     | |- context [Rlt_dec ?w 0] =>
         destruct (Rlt_dec w 0) as [Hneg | Hneg]
     end;
     cbn [share set_shrwts shrwts mName];
     eexists; (split; [reflexivity | split; reflexivity])).
Qed.

(** C5: in [adjustForCalibration] a share weight of 0 is first set to 1 when
    the calibration output of the period is positive; then, when
    [technologyDemand = share * subSectorDemand] is positive, the weight is
    multiplied by [calOutput / technologyDemand], and when the technology
    demand is 0 it is left exactly as it was after the first step; a weight
    that is negative after that is logged and reset to 1.  A zero weight with
    a positive calibration output never ends as 0. *)
Theorem adjustForCalibration_share_weight (subSectorDemand : R)
    (regionName : string) (period : Z) (t : technology) (calOutput : R) :
  getCalibrationOutput period t = Some calOutput ->
  let bumped := bumpedWeight_spec (shrwts t) calOutput in
  let technologyDemand := share t * subSectorDemand in
  let scaled := scaledWeight_spec bumped calOutput technologyDemand in
  exists t' log,
    adjustForCalibration subSectorDemand regionName period t
    = Some (t', log) /\
    (shrwts t = 0 -> 0 < calOutput -> bumped = 1) /\
    (~ (shrwts t = 0 /\ 0 < calOutput) -> bumped = shrwts t) /\
    (0 < technologyDemand ->
     scaled = bumped * (calOutput / technologyDemand)) /\
    (technologyDemand = 0 -> scaled = bumped) /\
    (scaled < 0 ->
     shrwts t' = 1 /\
     forall line, line ∈ negativeWeightLog (mName t) scaled -> line ∈ log) /\
    (0 <= scaled ->
     shrwts t' = scaled /\
     forall line, line ∈ log -> line ∈ largeWeightLog (mName t)) /\
    (shrwts t = 0 -> 0 < calOutput -> shrwts t' <> 0).
Proof.
  intros Hcal bumped technologyDemand scaled.
  destruct (adjustForCalibration_result subSectorDemand regionName period t
              calOutput Hcal) as (t' & Hrun & Hw & _).
  fold bumped technologyDemand scaled in Hrun, Hw.
  exists t'. eexists. split; [exact Hrun |].
  assert (Hbump : shrwts t = 0 -> 0 < calOutput -> bumped = 1).
  { intros Hz Hc. subst bumped. unfold bumpedWeight_spec.
    destruct (Req_dec_T (shrwts t) 0); [| done].
    destruct (Rlt_dec 0 calOutput); [reflexivity | done]. }
  assert (Hpos : 0 < technologyDemand ->
                 scaled = bumped * (calOutput / technologyDemand)).
  { intros Hd. subst scaled. unfold scaledWeight_spec.
    destruct (Rlt_dec 0 technologyDemand); [reflexivity | done]. }
  assert (Hnonpos : technologyDemand <= 0 -> scaled = bumped).
  { intros Hd. subst scaled. unfold scaledWeight_spec.
    destruct (Rlt_dec 0 technologyDemand); [lra | reflexivity]. }
  split; [exact Hbump |]. split.
  { intros Hnot. subst bumped. unfold bumpedWeight_spec.
    destruct (Req_dec_T (shrwts t) 0); [| reflexivity].
    destruct (Rlt_dec 0 calOutput); [| reflexivity].
    exfalso. apply Hnot. split; assumption. }
  split; [exact Hpos |]. split.
  { intros Hd. apply Hnonpos. lra. }
  split; [| split].
  - intros Hneg. rewrite Hw. unfold resetWeight_spec.
    destruct (Rlt_dec scaled 0) as [_ | Hn]; [| done].
    split; [reflexivity |]. intros line Hin. apply elem_of_app. left.
    exact Hin.
  - intros Hge. rewrite Hw. unfold resetWeight_spec.
    destruct (Rlt_dec scaled 0) as [Hn | _]; [lra |].
    split; [reflexivity |]. intros line Hin. simpl in Hin.
    destruct debugChecking; [| by apply elem_of_nil in Hin].
    destruct (Rlt_dec 1e6 scaled); [exact Hin | by apply elem_of_nil in Hin].
  - intros Hz Hc. rewrite Hw. specialize (Hbump Hz Hc).
    destruct (Rlt_dec 0 technologyDemand) as [Hd | Hd].
    + assert (Hs : 0 < scaled).
      { rewrite (Hpos Hd), Hbump, Rmult_1_l.
        apply Rdiv_lt_0_compat; assumption. }
      unfold resetWeight_spec. destruct (Rlt_dec scaled 0); lra.
    + assert (Hs : scaled = 1).
      { rewrite Hnonpos by lra. exact Hbump. }
      unfold resetWeight_spec. destruct (Rlt_dec scaled 0); lra.
Qed.

(** ** Properties of the production *)

Lemma demandCalls_app (l1 l2 : list Effect) :
  demandCalls (l1 ++ l2) = demandCalls l1 ++ demandCalls l2.
Proof. unfold demandCalls. apply List.filter_app. Qed.

(** Calls built per index that are never [AddToDemand] register nothing. *)
Lemma demandCalls_imap {A : Type} (f : nat -> A -> Effect) (l : list A) :
  (forall i x, isAddToDemand (f i x) = false) ->
  demandCalls (imap f l) = [].
Proof.
  revert f. induction l as [| x l IH]; intros f Hf; [reflexivity |].
  unfold demandCalls in *. simpl. rewrite Hf. apply IH.
  intros i y. apply Hf.
Qed.

Lemma calcEmissionsAndOutputs_demandCalls (aRegionName : string)
    (aInput aPrimaryOutput : R) (aGDP : GDP) (aPeriod : Z) (t : technology)
    (d : ITechnologyInfo) :
  mTechData t = Some d ->
  exists calls,
    calcEmissionsAndOutputs aRegionName aInput aPrimaryOutput aGDP aPeriod t
    = Some calls /\
    demandCalls calls = [].
Proof.
  intros Hd. unfold calcEmissionsAndOutputs. rewrite Hd.
  destruct (ghg t) as [| g gases] eqn:Hg.
  - eexists. split; [reflexivity |]. by apply demandCalls_imap.
  - eexists. split; [reflexivity |]. rewrite demandCalls_app.
    rewrite !demandCalls_imap by done. reflexivity.
Qed.

(** The test of [production] lets every fuel through that is neither
    "renewable" nor "none": the test for the empty name has no effect. *)
Lemma production_setsDemand_true (fuelName : string) :
  production_setsDemand fuelName = true
  <-> fuelName <> "renewable" /\ fuelName <> "none".
Proof.
  unfold production_setsDemand.
  rewrite andb_true_iff, orb_true_iff, !bool_decide_eq_true.
  split.
  - intros [Hren [Hnone | Hempty]]; split; try assumption.
    rewrite Hempty. discriminate.
  - intros [Hren Hnone]. split; [assumption | left; assumption].
Qed.

(** The fuel input that [production] stores and the demand it registers. *)
Lemma production_result (aRegionName aSectorName : string) (aDemand : R)
    (aGDP : GDP) (aPeriod : Z) (t : technology) (d : ITechnologyInfo) :
  mTechData t = Some d ->
  0 <= aDemand ->
  exists t' calls,
    production aRegionName aSectorName aDemand aGDP aPeriod t
    = Some (t', calls) /\
    input t'
    = share t * aDemand / (info_getEfficiency d * (1 - getEffPenalty d)) /\
    demandCalls calls
    = if production_setsDemand (getFuelName d)
      then [AddToDemand (getFuelName d) aRegionName (input t') aPeriod]
      else [].
Proof.
  intros Hd Hdmd. unfold production, getEfficiency.
  destruct (Rlt_dec aDemand 0) as [Hneg | _]; [lra |].
  rewrite Hd. cbn [mbind option_bind mTechData set_input]. rewrite Hd.
  cbn [mbind option_bind].
  match goal with
  | |- context [calcEmissionsAndOutputs ?r ?i ?o ?g ?p ?t1] =>
      destruct (calcEmissionsAndOutputs_demandCalls r i o g p t1 d Hd)
        as (calls & Hcalls & Hnone)
  end.
  rewrite Hcalls. cbn [mbind option_bind].
  eexists _, _. split; [reflexivity |]. split; [reflexivity |].
  rewrite !demandCalls_app, Hnone, app_nil_r.
  cbn [input set_input].
  destruct (Rlt_dec (share t * aDemand) 0);
    destruct (production_setsDemand (getFuelName d)); reflexivity.
Qed.

(** C3, what the code does: for a technology whose fuel name is the empty
    string, [production] does register the fuel input
    [share * demand / effective efficiency] as demand, under the empty fuel
    name.  (For "renewable" and "none" it registers nothing, see
    [production_unmetered_fuels].) *)
Theorem production_registers_demand_for_empty_fuel
    (aRegionName aSectorName : string) (aDemand : R) (aGDP : GDP)
    (aPeriod : Z) (t : technology) (d : ITechnologyInfo) :
  mTechData t = Some d ->
  getFuelName d = "" ->
  0 <= aDemand ->
  exists t' calls,
    production aRegionName aSectorName aDemand aGDP aPeriod t
    = Some (t', calls) /\
    demandCalls calls
    = [AddToDemand "" aRegionName
         (share t * aDemand / (info_getEfficiency d * (1 - getEffPenalty d)))
         aPeriod].
Proof.
  intros Hd Hfuel Hdmd.
  destruct (production_result aRegionName aSectorName aDemand aGDP aPeriod t d
              Hd Hdmd) as (t' & calls & Hrun & Hin & Hcalls).
  exists t', calls. split; [exact Hrun |].
  rewrite Hcalls, Hin, Hfuel. reflexivity.
Qed.

(** The rest of the sentence of C3 holds: a fuel named "renewable" or "none"
    registers no demand, every other fuel with a name registers the fuel
    input. *)
Lemma production_unmetered_fuels (aRegionName aSectorName : string)
    (aDemand : R) (aGDP : GDP) (aPeriod : Z) (t : technology)
    (d : ITechnologyInfo) :
  mTechData t = Some d ->
  0 <= aDemand ->
  exists t' calls,
    production aRegionName aSectorName aDemand aGDP aPeriod t
    = Some (t', calls) /\
    (getFuelName d = "renewable" \/ getFuelName d = "none" ->
     demandCalls calls = []) /\
    (getFuelName d <> "renewable" -> getFuelName d <> "none" ->
     demandCalls calls
     = [AddToDemand (getFuelName d) aRegionName
          (share t * aDemand
           / (info_getEfficiency d * (1 - getEffPenalty d)))
          aPeriod]).
Proof.
  intros Hd Hdmd.
  destruct (production_result aRegionName aSectorName aDemand aGDP aPeriod t d
              Hd Hdmd) as (t' & calls & Hrun & Hin & Hcalls).
  exists t', calls. split; [exact Hrun |]. rewrite Hcalls, Hin. split.
  - intros Hfuel.
    destruct (production_setsDemand (getFuelName d)) eqn:Htest;
      [| reflexivity].
    apply production_setsDemand_true in Htest. destruct Htest.
    destruct Hfuel; contradiction.
  - intros Hren Hnone.
    destruct (production_setsDemand (getFuelName d)) eqn:Htest;
      [reflexivity |].
    assert (Hyes : production_setsDemand (getFuelName d) = true)
      by (apply production_setsDemand_true; split; assumption).
    congruence.
Qed.

(** ** Properties of the emissions bookkeeping *)

(** After the loop the by-fuel map holds, under the fuel name, the fuel
    emission of the last GHG that was visited. *)
Lemma calcEmission_loop_emfuelmap (aPeriod : Z) (d : ITechnologyInfo)
    (gases : list AGHG) (maps : gmap string R * gmap string R) :
  exists em,
    calcEmission_loop aPeriod (Some d) gases maps
    = Some (em,
            match last gases with
            | Some g => <[getFuelName d := getEmissFuel g aPeriod]> (snd maps)
            | None => snd maps
            end).
Proof.
  revert maps. induction gases as [| g rest IH]; intros [em ef].
  - exists em. reflexivity.
  - cbn [calcEmission_loop mbind option_bind fst snd].
    match goal with
    | |- context [calcEmission_loop _ _ rest ?m] =>
        destruct (IH m) as [em' Hloop]
    end.
    exists em'. rewrite Hloop. f_equal. f_equal.
    destruct rest as [| g' rest']; [reflexivity |].
    change (last (g :: g' :: rest')) with (last (g' :: rest')).
    destruct (last (g' :: rest')) as [gl |] eqn:Hlast.
    + cbn [snd]. apply insert_insert_eq.
    + apply last_None in Hlast. discriminate.
Qed.

(** Without any GHG the loop body never runs and both maps stay empty. *)
Lemma calcEmission_no_ghg (aGoodName : string) (aPeriod : Z)
    (t : technology) :
  ghg t = [] ->
  exists t',
    calcEmission aGoodName aPeriod t = Some t' /\
    emissmap t' = ∅ /\ emfuelmap t' = ∅.
Proof.
  intros Hnone. unfold calcEmission. rewrite Hnone.
  eexists. split; [reflexivity |]. split; reflexivity.
Qed.

(** C10: after [calcEmission] on a technology that has GHGs (as every
    technology has after [completeInit]) the by-fuel map [emfuelmap] has
    exactly one entry; its key is the fuel name of the technology, without
    any gas name, and its value is the fuel emission of the last GHG of the
    list: every gas of the loop overwrites the entry of the one before. *)
Theorem calcEmission_emfuelmap_single_entry (aGoodName : string) (aPeriod : Z)
    (t : technology) (d : ITechnologyInfo) :
  mTechData t = Some d ->
  ghg t <> [] ->
  exists t' g,
    calcEmission aGoodName aPeriod t = Some t' /\
    last (ghg t) = Some g /\
    emfuelmap t' = {[ getFuelName d := getEmissFuel g aPeriod ]} /\
    size (emfuelmap t') = 1%nat /\
    (forall key value,
       emfuelmap t' !! key = Some value ->
       key = getFuelName d /\ value = getEmissFuel g aPeriod).
Proof.
  intros Hd Hghg. unfold calcEmission. rewrite Hd.
  destruct (calcEmission_loop_emfuelmap aPeriod d (ghg t) (∅, ∅))
    as [em Hloop].
  rewrite Hloop. cbn [mbind option_bind fst snd].
  destruct (last (ghg t)) as [g |] eqn:Hlast.
  - eexists _, g. split; [reflexivity |]. split; [reflexivity |].
    cbn [emfuelmap set_emfuelmap]. rewrite insert_empty.
    split; [reflexivity |]. split; [apply map_size_singleton |].
    intros key value Hlook. apply lookup_singleton_Some in Hlook.
    destruct Hlook as [Hk Hv]. split; congruence.
  - apply last_None in Hlast. contradiction.
Qed.

(** ** Properties of the initialisation *)

(** An indexed vector of GHGs has no two GHGs of the same name. *)
Lemma ghgNameMap_indexes_ghg_NoDup (t : technology) :
  ghgNameMap_indexes_ghg t -> NoDup (ghgNames t).
Proof.
  intros Hidx. apply NoDup_alt. intros i j name Hi Hj.
  assert (Hmi : ghgNameMap t !! name = Some (Z.of_nat i)).
  { apply Hidx. rewrite Nat2Z.id. split; [lia | exact Hi]. }
  assert (Hmj : ghgNameMap t !! name = Some (Z.of_nat j)).
  { apply Hidx. rewrite Nat2Z.id. split; [lia | exact Hj]. }
  rewrite Hmi in Hmj. injection Hmj as Heq. lia.
Qed.

(** The GHGs, their index and the outputs after [completeInit]. *)
Lemma completeInit_containers (aSectorName : string) (hasDepFinder : bool)
    (aGlobalTechDB : option GlobalTechnologyDatabase) (t : technology) :
  let t' := fst (completeInit aSectorName hasDepFinder aGlobalTechDB t) in
  mOutputs t' = PrimaryOutput_new aSectorName :: mOutputs t /\
  match ghgNameMap t !! CO2Emissions_getXMLNameStatic with
  | Some _ => ghg t' = ghg t /\ ghgNameMap t' = ghgNameMap t
  | None =>
      ghg t' = ghg t ++ [CO2Emissions_new] /\
      ghgNameMap t'
      = <[CO2Emissions_getXMLNameStatic := Z.of_nat (length (ghg t))]>
          (ghgNameMap t)
  end.
Proof.
  unfold completeInit. cbn [fst ghgNameMap set_mTechData].
  destruct (ghgNameMap t !! CO2Emissions_getXMLNameStatic) as [i |];
    cbn [fixedOutput set_mOutputs set_ghg set_mTechData];
    destruct (Rle_dec 0 (fixedOutput t)); cbn; (split; [reflexivity |]);
    (split; [reflexivity |]); try reflexivity.
  all: f_equal; rewrite length_app; simpl; lia.
Qed.

(** Appending a CO2 source that the index does not know yet keeps the index
    in step with the vector. *)
Lemma ghgNameMap_indexes_ghg_push (names : list string)
    (index : gmap string Z) (co2 : string) :
  (forall name i,
     index !! name = Some i
     <-> (0 <= i)%Z /\ names !! Z.to_nat i = Some name) ->
  index !! co2 = None ->
  forall name i,
    <[co2 := Z.of_nat (length names)]> index !! name = Some i
    <-> (0 <= i)%Z /\ (names ++ [co2]) !! Z.to_nat i = Some name.
Proof.
  intros Hidx Hnew name i.
  destruct (decide (co2 = name)) as [<- | Hne].
  - rewrite lookup_insert_eq. split.
    + intros [= <-]. split; [lia |].
      rewrite Nat2Z.id. rewrite lookup_app_r by lia.
      rewrite Nat.sub_diag. reflexivity.
    + intros [Hpos Hlook].
      destruct (decide (Z.to_nat i < length names)%nat) as [Hlt | Hge].
      * rewrite lookup_app_l in Hlook by exact Hlt.
        assert (Hold : index !! co2 = Some i) by (apply Hidx; done).
        congruence.
      * apply lookup_lt_Some in Hlook. rewrite length_app in Hlook.
        simpl in Hlook. f_equal. lia.
  - rewrite lookup_insert_ne by exact Hne. rewrite Hidx.
    split; intros [Hpos Hlook]; (split; [exact Hpos |]).
    + rewrite lookup_app_l; [exact Hlook |].
      apply lookup_lt_Some in Hlook. exact Hlook.
    + destruct (decide (Z.to_nat i < length names)%nat) as [Hlt | Hge].
      * rewrite lookup_app_l in Hlook by exact Hlt. exact Hlook.
      * rewrite lookup_app_r in Hlook by lia.
        destruct (Z.to_nat i - length names)%nat; simpl in Hlook;
          [congruence | discriminate].
Qed.

(** A technology that comes out of the constructor has an empty vector of
    GHGs and an empty index. *)
Lemma new_technology_indexes_ghg (aName : string) (aYear : Z) :
  ghgNameMap_indexes_ghg (new_technology aName aYear).
Proof.
  intros name i. unfold ghgNames. cbn [ghgNameMap ghg new_technology].
  rewrite lookup_empty. split; [discriminate | intros [_ Hlook]].
  discriminate Hlook.
Qed.

(** [completeInit] keeps the index in step with the vector and leaves a GHG
    named CO2 in it: the one that was parsed, or else the one it appends. *)
Lemma completeInit_ghg_index (aSectorName : string) (hasDepFinder : bool)
    (aGlobalTechDB : option GlobalTechnologyDatabase) (t : technology) :
  ghg_getName CO2Emissions_new = CO2Emissions_getXMLNameStatic ->
  ghgNameMap_indexes_ghg t ->
  let t' := fst (completeInit aSectorName hasDepFinder aGlobalTechDB t) in
  ghgNameMap_indexes_ghg t' /\
  CO2Emissions_getXMLNameStatic ∈ ghgNames t' /\
  (CO2Emissions_getXMLNameStatic ∉ ghgNames t ->
   ghg t' = ghg t ++ [CO2Emissions_new]) /\
  (CO2Emissions_getXMLNameStatic ∈ ghgNames t -> ghg t' = ghg t).
Proof.
  intros Hname Hidx t'.
  destruct (completeInit_containers aSectorName hasDepFinder aGlobalTechDB t)
    as [_ Hghg].
  fold t' in Hghg.
  destruct (ghgNameMap t !! CO2Emissions_getXMLNameStatic) as [i |] eqn:Hco2;
    destruct Hghg as [Hg Hm].
  - assert (Hin : CO2Emissions_getXMLNameStatic ∈ ghgNames t).
    { apply Hidx in Hco2. destruct Hco2 as [_ Hlook].
      eapply list_elem_of_lookup_2. exact Hlook. }
    split; [| split; [| split]].
    + unfold ghgNameMap_indexes_ghg, ghgNames. rewrite Hg, Hm. exact Hidx.
    + unfold ghgNames. rewrite Hg. exact Hin.
    + intros Hnot. contradiction.
    + intros _. exact Hg.
  - assert (Hnot : CO2Emissions_getXMLNameStatic ∉ ghgNames t).
    { intros Hin. apply list_elem_of_lookup_1 in Hin.
      destruct Hin as [k Hk].
      assert (Hsome : ghgNameMap t !! CO2Emissions_getXMLNameStatic
                      = Some (Z.of_nat k)).
      { apply Hidx. rewrite Nat2Z.id. split; [lia | exact Hk]. }
      congruence. }
    split; [| split; [| split]].
    + unfold ghgNameMap_indexes_ghg, ghgNames. rewrite Hg, Hm.
      rewrite fmap_app. simpl. rewrite Hname.
      replace (length (ghg t)) with (length (ghg_getName <$> ghg t))
        by apply length_fmap.
      apply ghgNameMap_indexes_ghg_push; assumption.
    + unfold ghgNames. rewrite Hg, fmap_app. simpl. rewrite Hname.
      apply elem_of_app. right. apply list_elem_of_singleton. reflexivity.
    + intros _. exact Hg.
    + intros Hin. contradiction.
Qed.

(** After [completeInit] the vector of GHGs is not empty, so that the loop of
    [calcEmission] runs at least once. *)
Lemma completeInit_ghg_nonempty (aSectorName : string) (hasDepFinder : bool)
    (aGlobalTechDB : option GlobalTechnologyDatabase) (t : technology) :
  ghg_getName CO2Emissions_new = CO2Emissions_getXMLNameStatic ->
  ghgNameMap_indexes_ghg t ->
  ghg (fst (completeInit aSectorName hasDepFinder aGlobalTechDB t)) <> [].
Proof.
  intros Hname Hidx Hempty.
  destruct (completeInit_ghg_index aSectorName hasDepFinder aGlobalTechDB t
              Hname Hidx) as (_ & Hin & _).
  unfold ghgNames in Hin. rewrite Hempty in Hin.
  simpl in Hin. by apply elem_of_nil in Hin.
Qed.

(** C8: [completeInit] keeps [ghgNameMap] the index of [ghg], so that after
    it the technology holds exactly one GHG for each gas name, and a GHG named
    CO2 is among them: when the input configuration gave none, the CO2 source
    is appended.  The primary output is put at position 0 of the outputs, in
    front of the outputs that were parsed. *)
Theorem completeInit_ghgs_and_primary_output (aSectorName : string)
    (hasDepFinder : bool) (aGlobalTechDB : option GlobalTechnologyDatabase)
    (t : technology) :
  ghg_getName CO2Emissions_new = CO2Emissions_getXMLNameStatic ->
  ghgNameMap_indexes_ghg t ->
  let t' := fst (completeInit aSectorName hasDepFinder aGlobalTechDB t) in
  ghgNameMap_indexes_ghg t' /\
  NoDup (ghgNames t') /\
  CO2Emissions_getXMLNameStatic ∈ ghgNames t' /\
  (CO2Emissions_getXMLNameStatic ∉ ghgNames t ->
   ghg t' = ghg t ++ [CO2Emissions_new]) /\
  (CO2Emissions_getXMLNameStatic ∈ ghgNames t -> ghg t' = ghg t) /\
  mOutputs t' !! 0%nat = Some (PrimaryOutput_new aSectorName) /\
  outputClass (PrimaryOutput_new aSectorName) = PrimaryOutputClass /\
  mOutputs t' = PrimaryOutput_new aSectorName :: mOutputs t.
Proof.
  intros Hname Hidx t'.
  destruct (completeInit_containers aSectorName hasDepFinder aGlobalTechDB t)
    as [Houts _].
  destruct (completeInit_ghg_index aSectorName hasDepFinder aGlobalTechDB t
              Hname Hidx) as (Hidx' & Hin' & Hpush & Hsame).
  fold t' in Houts, Hidx', Hin', Hpush, Hsame.
  split; [exact Hidx' |].
  split; [apply ghgNameMap_indexes_ghg_NoDup; exact Hidx' |].
  split; [exact Hin' |]. split; [exact Hpush |]. split; [exact Hsame |].
  rewrite Houts. repeat split.
Qed.

(** ** Further properties of the cost computation *)

Lemma fold_left_Rplus {A : Type} (f : A -> R) (l : list A) (a : R) :
  fold_left (fun acc x => acc + f x) l a
  = a + foldr (fun x acc => f x + acc) 0 l.
Proof.
  revert a. induction l as [| x l IH]; intros a; simpl; [lra |].
  rewrite IH. lra.
Qed.

Lemma fold_left_Rminus {A : Type} (f : A -> R) (l : list A) (a : R) :
  fold_left (fun acc x => acc - f x) l a
  = a - foldr (fun x acc => f x + acc) 0 l.
Proof.
  revert a. induction l as [| x l IH]; intros a; simpl; [lra |].
  rewrite IH. lra.
Qed.

(** With technology data [calcSecondaryValue] has a value. *)
Lemma calcSecondaryValue_is_Some (aRegionName : string) (aPeriod : Z)
    (t : technology) (d : ITechnologyInfo) :
  mTechData t = Some d ->
  exists sv, calcSecondaryValue aRegionName aPeriod t = Some sv.
Proof.
  intros Hd. unfold calcSecondaryValue, getEfficiency. rewrite Hd.
  eexists. reflexivity.
Qed.

(** X1: the secondary value that [calcCost] subtracts is the sum of the
    values of the outputs minus the total GHG cost that [getTotalGHGCost]
    reports. *)
Theorem calcSecondaryValue_is_output_value_minus_ghg_cost
    (aRegionName : string) (aPeriod : Z) (t : technology)
    (d : ITechnologyInfo) :
  mTechData t = Some d ->
  exists ghgCost,
    getTotalGHGCost aRegionName aPeriod t = Some ghgCost /\
    calcSecondaryValue aRegionName aPeriod t
    = Some (foldr (fun o acc => getValue o aRegionName aPeriod + acc) 0
              (mOutputs t)
            - ghgCost).
Proof.
  intros Hd.
  exists (foldr
            (fun g acc =>
               getGHGValue g aRegionName (getFuelName d) (mOutputs t)
                 (info_getEfficiency d * (1 - getEffPenalty d)) aPeriod
               + acc)
            0 (ghg t)).
  split.
  - unfold getTotalGHGCost, getEfficiency. rewrite Hd.
    destruct (ghg t) as [| g gases] eqn:Hg; [reflexivity |].
    cbn [mbind option_bind]. f_equal.
    rewrite (fold_left_Rplus
               (fun g0 =>
                  getGHGValue g0 aRegionName (getFuelName d) (mOutputs t)
                    (info_getEfficiency d * (1 - getEffPenalty d)) aPeriod)).
    lra.
  - unfold calcSecondaryValue, getEfficiency. rewrite Hd.
    cbn [mbind option_bind]. f_equal.
    rewrite (fold_left_Rplus (fun o => getValue o aRegionName aPeriod)).
    rewrite (fold_left_Rminus
               (fun g0 =>
                  getGHGValue g0 aRegionName (getFuelName d) (mOutputs t)
                    (info_getEfficiency d * (1 - getEffPenalty d)) aPeriod)).
    lra.
Qed.

(** X2: for a fuel named "none", "renewable" or not named at all, [calcCost]
    stores a fuel cost of 0 and logs nothing, whatever price the marketplace
    has under that name. *)
Theorem calcCost_unpriced_fuel_costs_nothing (regionName sectorName : string)
    (per : Z) (t : technology) (d : ITechnologyInfo) :
  mTechData t = Some d ->
  getFuelName d = "none" \/ getFuelName d = "" \/ getFuelName d = "renewable"
  ->
  exists t',
    calcCost regionName sectorName per t = Some (t', []) /\
    fuelcost t' = 0.
Proof.
  intros Hd Hfuel.
  destruct (calcSecondaryValue_is_Some regionName per t d Hd) as [sv Hsv].
  rewrite (calcCost_result regionName sectorName per t d sv Hd Hsv).
  assert (Hprice : calcCost_fuelprice regionName sectorName per (mName t) d
                   = (0, [])).
  { unfold calcCost_fuelprice.
    destruct Hfuel as [Hf | [Hf | Hf]]; rewrite Hf; reflexivity. }
  rewrite Hprice. eexists. split; [reflexivity |].
  cbn [fuelcost set_techcost set_fuelcost fst]. unfold Rdiv. ring.
Qed.

(** X3: for a priced fuel without a market price ([NO_MARKET_PRICE])
    [calcCost] does not fail: it logs one error line and computes the fuel
    cost from the large number. *)
Theorem calcCost_missing_price_uses_large_number
    (regionName sectorName : string) (per : Z) (t : technology)
    (d : ITechnologyInfo) :
  mTechData t = Some d ->
  getFuelName d <> "none" -> getFuelName d <> "" ->
  getFuelName d <> "renewable" ->
  getPrice (getFuelName d) regionName per = NO_MARKET_PRICE ->
  exists t' line,
    calcCost regionName sectorName per t
    = Some (t', [LogLine "main_log" ERROR line]) /\
    fuelcost t'
    = getLargeNumber * getFMultiplier d
      / (info_getEfficiency d * (1 - getEffPenalty d)) /\
    getSmallNumber <= techcost t'.
Proof.
  intros Hd Hnone Hempty Hren Hprice.
  destruct (calcSecondaryValue_is_Some regionName per t d Hd) as [sv Hsv].
  rewrite (calcCost_result regionName sectorName per t d sv Hd Hsv).
  unfold calcCost_fuelprice.
  rewrite !bool_decide_eq_false_2 by assumption. cbn [orb].
  destruct (Req_dec_T (getPrice (getFuelName d) regionName per)
              NO_MARKET_PRICE) as [_ | Hne]; [| contradiction].
  eexists _, _. split; [reflexivity |].
  cbn [fuelcost techcost set_techcost set_fuelcost fst].
  split; [reflexivity | apply std_max_lower_bound].
Qed.

(** X4: [calcCost] can be run again: on the technology it returns, with the
    marketplace unchanged, it returns the same technology and the same log. *)
Theorem calcCost_again_changes_nothing (regionName sectorName : string)
    (per : Z) (t t' : technology) (log : list Effect) :
  calcCost regionName sectorName per t = Some (t', log) ->
  calcCost regionName sectorName per t' = Some (t', log).
Proof.
  intros Hrun.
  destruct (mTechData t) as [d |] eqn:Hd;
    [| unfold calcCost in Hrun; rewrite Hd in Hrun; discriminate].
  destruct (calcSecondaryValue_is_Some regionName per t d Hd) as [sv Hsv].
  rewrite (calcCost_result regionName sectorName per t d sv Hd Hsv) in Hrun.
  injection Hrun as Ht Hlog. subst t' log.
  rewrite (calcCost_result regionName sectorName per _ d sv);
    [reflexivity | exact Hd | exact Hsv].
Qed.

(** ** Further properties of the shares and of the fixed output *)

Lemma adjShares_fixedOutput (subsecdmd subsecfixedOutput varShareTot : R)
    (per : Z) (t : technology) :
  fixedOutput (adjShares subsecdmd subsecfixedOutput varShareTot per t)
  = fixedOutput t.
Proof.
  unfold adjShares.
  repeat match goal with
         | |- context [if ?c then _ else _] => destruct c
         end; reflexivity.
Qed.

(** X5: [resetFixedOutput] discards what [scaleFixedOutput] and [adjShares]
    did to the working value: for a technology configured with a fixed output
    the working value, and the fixed output that [getFixedOutput] reports, is
    the configured one again. *)
Theorem resetFixedOutput_discards_scaling
    (scaleRatio subsecdmd subsecfixedOutput varShareTot : R) (per : Z)
    (t : technology) :
  0 <= fixedOutput t ->
  fixedOutputVal (resetFixedOutput per (scaleFixedOutput scaleRatio t))
  = fixedOutput t /\
  fixedOutputVal
    (resetFixedOutput per
       (adjShares subsecdmd subsecfixedOutput varShareTot per t))
  = fixedOutput t /\
  getFixedOutput (resetFixedOutput per (scaleFixedOutput scaleRatio t))
  = fixedOutput t.
Proof.
  intros Hfix.
  assert (Hscale : fixedOutput (scaleFixedOutput scaleRatio t)
                   = fixedOutput t).
  { unfold scaleFixedOutput.
    destruct (Rle_dec 0 (fixedOutputVal t)); reflexivity. }
  assert (Hreset : forall t0, fixedOutput t0 = fixedOutput t ->
                     fixedOutputVal (resetFixedOutput per t0)
                     = fixedOutput t).
  { intros t0 Ht0. unfold resetFixedOutput. rewrite Ht0.
    destruct (Rle_dec 0 (fixedOutput t)) as [_ | Hn]; [| contradiction].
    reflexivity. }
  split; [apply Hreset; exact Hscale |].
  split; [apply Hreset; apply adjShares_fixedOutput |].
  unfold getFixedOutput. rewrite (Hreset _ Hscale).
  destruct (Req_dec_T (fixedOutput t) getFixedOutputDefault) as [He | _];
    [| reflexivity].
  unfold getFixedOutputDefault in He. lra.
Qed.

(** What one technology contributes to the fixed output of its subsector
    after scaling. *)
Lemma scaleFixedOutput_contribution (scaleRatio : R) (t : technology) :
  0 <= scaleRatio ->
  (if Rle_dec 0 (fixedOutputVal (scaleFixedOutput scaleRatio t))
   then fixedOutputVal (scaleFixedOutput scaleRatio t) else 0)
  = (if Rle_dec 0 (fixedOutputVal t) then fixedOutputVal t else 0)
    * scaleRatio.
Proof.
  intros Hr. unfold scaleFixedOutput.
  destruct (Rle_dec 0 (fixedOutputVal t)) as [Hf | Hv].
  - cbn [fixedOutputVal set_fixedOutputVal].
    destruct (Rle_dec 0 (fixedOutputVal t * scaleRatio)) as [_ | Hn];
      [reflexivity |].
    exfalso. apply Hn. apply Rmult_le_pos; assumption.
  - destruct (Rle_dec 0 (fixedOutputVal t)); [contradiction | lra].
Qed.

(** X6: [scaleFixedOutput] leaves a technology without fixed output as it is;
    applied with a ratio that is not negative to every technology of a
    subsector it multiplies the fixed output of the subsector by the ratio, so
    that the ratio [demand / fixed output] brings the fixed output down to the
    demand. *)
Theorem scaleFixedOutput_scales_subsector (scaleRatio demand : R)
    (techs : list technology) :
  (forall t, fixedOutputVal t < 0 -> scaleFixedOutput scaleRatio t = t) /\
  (0 <= scaleRatio ->
   sumFixedOutput (scaleFixedOutput scaleRatio <$> techs)
   = sumFixedOutput techs * scaleRatio) /\
  (0 < sumFixedOutput techs -> 0 <= demand ->
   sumFixedOutput
     (scaleFixedOutput (demand / sumFixedOutput techs) <$> techs)
   = demand).
Proof.
  assert (Hsum : forall r, 0 <= r ->
            sumFixedOutput (scaleFixedOutput r <$> techs)
            = sumFixedOutput techs * r).
  { intros r Hr. unfold sumFixedOutput.
    induction techs as [| t rest IH]; [simpl; lra |].
    rewrite fmap_cons. cbn [foldr].
    rewrite IH, (scaleFixedOutput_contribution r t Hr). lra. }
  split; [| split].
  - intros t Hneg. unfold scaleFixedOutput.
    destruct (Rle_dec 0 (fixedOutputVal t)); [lra | reflexivity].
  - apply Hsum.
  - intros Hpos Hdmd. rewrite Hsum.
    + field. lra.
    + unfold Rdiv. apply Rmult_le_pos; [exact Hdmd |].
      left. apply Rinv_0_lt_compat. exact Hpos.
Qed.

(** X7: in the vintage year of a technology with a positive efficiency the
    fixed input is the input required for the fixed output:
    [getFixedInput] agrees with [getInputRequiredForOutput] at
    [getFixedOutput]. *)
Theorem getFixedInput_is_input_required_for_fixed_output (aPeriod : Z)
    (t : technology) (d : ITechnologyInfo) :
  mTechData t = Some d ->
  0 < info_getEfficiency d * (1 - getEffPenalty d) ->
  year t = getper_to_yr aPeriod ->
  getFixedInput aPeriod t
  = getInputRequiredForOutput (getFixedOutput t) aPeriod t.
Proof.
  intros Hd Heff Hyear.
  unfold getFixedInput, getInputRequiredForOutput, getFixedOutput,
    getEfficiency.
  rewrite Hd. cbn [mbind option_bind].
  destruct (Rlt_dec 0 (info_getEfficiency d * (1 - getEffPenalty d)))
    as [_ | Hn]; [| contradiction].
  destruct (Req_dec_T (fixedOutputVal t) getFixedOutputDefault) as [_ | _].
  - f_equal. unfold Rdiv. ring.
  - rewrite bool_decide_eq_false_2; [reflexivity |].
    intros Hne. contradiction.
Qed.

(** X8: [adjShares] touches the working fixed output in one case only: a
    technology whose fixed output exceeds a positive subsector demand.  There
    the working value becomes the fixed output of the whole subsector, while
    the share, computed from the value before, is above 1. *)
Theorem adjShares_downgrades_fixed_output
    (subsecdmd subsecfixedOutput varShareTot : R) (per : Z) (t : technology) :
  0 < subsecfixedOutput ->
  let t' := adjShares subsecdmd subsecfixedOutput varShareTot per t in
  (0 < subsecdmd -> subsecdmd < fixedOutputVal t ->
   fixedOutputVal t' = subsecfixedOutput /\ 1 < share t') /\
  (~ (0 < subsecdmd /\ subsecdmd < fixedOutputVal t) ->
   fixedOutputVal t' = fixedOutputVal t).
Proof.
  intros Hfix t'. subst t'. unfold adjShares.
  destruct (Rlt_dec 0 subsecfixedOutput) as [_ | Hn]; [| contradiction].
  split.
  - intros Hd Hover.
    destruct (Rle_dec 0 (fixedOutputVal t)) as [_ | Hv]; [| lra].
    destruct (Rlt_dec 0 subsecdmd) as [_ | Hn]; [| contradiction].
    cbn [fixedOutputVal set_share].
    destruct (Rlt_dec subsecdmd (fixedOutputVal t)) as [_ | Hn];
      [| contradiction].
    cbn [fixedOutputVal share set_fixedOutputVal set_share].
    split; [reflexivity |].
    apply Rmult_lt_reg_r with (r := subsecdmd); [exact Hd |].
    unfold Rdiv. rewrite Rmult_assoc, Rinv_l by lra. lra.
  - intros Hnot.
    destruct (Rle_dec 0 (fixedOutputVal t)) as [Hf | Hv];
      destruct (Rlt_dec 0 subsecdmd) as [Hd | Hd]; try reflexivity.
    cbn [fixedOutputVal set_share].
    destruct (Rlt_dec subsecdmd (fixedOutputVal t)) as [Hover | _];
      [| reflexivity].
    exfalso. apply Hnot. split; assumption.
Qed.

(** The shares of a subsector after [adjShares], when the demand is
    positive. *)
Lemma adjShares_sumShares (subsecdmd subsecfixedOutput varShareTot : R)
    (per : Z) (techs : list technology) :
  0 < subsecfixedOutput ->
  0 < subsecdmd ->
  sumShares (adjShares subsecdmd subsecfixedOutput varShareTot per <$> techs)
  = sumFixedOutput techs / subsecdmd
    + sumVariableShares techs
      * (Rmax (subsecdmd - subsecfixedOutput) 0 / subsecdmd) / varShareTot.
Proof.
  intros Hfix Hdmd. unfold sumShares, sumFixedOutput, sumVariableShares.
  induction techs as [| t rest IH].
  - simpl. unfold Rdiv. ring.
  - rewrite fmap_cons. cbn [foldr]. rewrite IH.
    rewrite (adjShares_share subsecdmd subsecfixedOutput varShareTot per t
               Hfix).
    destruct (Rlt_dec 0 subsecdmd) as [_ | Hn]; [| contradiction].
    destruct (Rle_dec 0 (fixedOutputVal t)); unfold Rdiv; ring.
Qed.

(** X9: the shares of a subsector add up to 1 after [adjShares], when the
    subsector passes the sums the method expects: the fixed output of its
    fixed technologies, which is positive and within the demand, and the
    nonzero sum of the shares of its variable technologies. *)
Theorem adjShares_shares_add_up_to_one
    (subsecdmd subsecfixedOutput varShareTot : R) (per : Z)
    (techs : list technology) :
  subsecfixedOutput = sumFixedOutput techs ->
  varShareTot = sumVariableShares techs ->
  0 < subsecfixedOutput ->
  subsecfixedOutput <= subsecdmd ->
  varShareTot <> 0 ->
  sumShares (adjShares subsecdmd subsecfixedOutput varShareTot per <$> techs)
  = 1.
Proof.
  intros Hf Hv Hfix Hle Hvar.
  rewrite adjShares_sumShares by lra.
  rewrite <- Hf, <- Hv. rewrite Rmax_left by lra. field. lra.
Qed.

(** X10: [normShare] with the sum of their shares returns for every
    technology of a subsector; afterwards the shares add up to 1 when that sum
    is not 0, and every share is 0, set without a division, when it is 0. *)
Theorem normShare_shares_add_up_to_one (techs : list technology) :
  (sumShares techs <> 0 ->
   exists techs',
     mapM (normShare (sumShares techs)) techs = Some techs' /\
     sumShares techs' = 1) /\
  (sumShares techs = 0 ->
   mapM (normShare (sumShares techs)) techs = Some (set_share 0 <$> techs) /\
   forall t, t ∈ techs -> normShare (sumShares techs) t = Some (set_share 0 t)).
Proof.
  split.
  - intros Hsum.
    assert (Hall : forall sum l, sum <> 0 ->
              mapM (normShare sum) l
              = Some ((fun t => set_share (share t / sum) t) <$> l)).
    { intros sum l Hne. induction l as [| t rest IH]; [reflexivity |].
      cbn [mapM]. rewrite IH. unfold normShare, double_div.
      destruct (Req_dec_T sum 0); [contradiction | reflexivity]. }
    assert (Hdiv : forall sum l,
              sumShares ((fun t => set_share (share t / sum) t) <$> l)
              = sumShares l / sum).
    { intros sum l. unfold sumShares.
      induction l as [| t rest IH]; [simpl; unfold Rdiv; ring |].
      rewrite fmap_cons. cbn [foldr]. rewrite IH.
      cbn [share set_share]. unfold Rdiv. ring. }
    eexists. split; [apply Hall; exact Hsum |].
    rewrite Hdiv. field. exact Hsum.
  - intros Hzero. rewrite Hzero.
    assert (Hone : forall t, normShare 0 t = Some (set_share 0 t)).
    { intros t. unfold normShare.
      destruct (Req_dec_T 0 0) as [_ | Hn]; [reflexivity | lra]. }
    split; [| intros t _; apply Hone].
    induction techs as [| t rest IH]; [reflexivity |].
    cbn [mapM]. rewrite Hone.
    assert (Hrest : mapM (normShare 0) rest = Some (set_share 0 <$> rest)).
    { clear IH Hzero. induction rest as [| t0 rest0 IH0]; [reflexivity |].
      cbn [mapM]. rewrite Hone, IH0. reflexivity. }
    rewrite Hrest. reflexivity.
Qed.

(** ** Further properties of the initialisation *)

(** The technology data after [completeInit]. *)
Lemma completeInit_mTechData (aSectorName : string) (hasDepFinder : bool)
    (aGlobalTechDB : option GlobalTechnologyDatabase) (t : technology) :
  mTechData (fst (completeInit aSectorName hasDepFinder aGlobalTechDB t))
  = Some (info_completeInit
            (default (GenericTechnologyInfo_new (mName t))
               (match mGetGlobalTech t, aGlobalTechDB with
                | true, Some db => getTechnology db (mName t) (year t)
                | _, _ => mTechData t
                end))).
Proof.
  unfold completeInit. cbn [fst ghgNameMap set_mTechData].
  destruct (ghgNameMap t !! CO2Emissions_getXMLNameStatic);
    cbn [fixedOutput set_mOutputs set_ghg set_mTechData];
    destruct (Rle_dec 0 (fixedOutput t));
    cbn [mTechData set_fixedOutputVal set_mOutputs set_ghg set_mTechData];
    f_equal; f_equal;
    destruct (mGetGlobalTech t), aGlobalTechDB as [db |];
    try destruct (getTechnology db (mName t) (year t));
    try destruct (mTechData t); reflexivity.
Qed.

(** X11: a technology that parsed a parameter of its own ([createTechData])
    keeps its own data in [completeInit], whatever the global technology
    database holds; a technology flagged as global takes the data of the
    database, also in place of data of its own, and the default data when the
    database has no entry for it. *)
Theorem completeInit_own_or_global_data (aSectorName : string)
    (hasDepFinder : bool) (aGlobalTechDB : option GlobalTechnologyDatabase)
    (t : technology) :
  mTechData
    (fst (completeInit aSectorName hasDepFinder aGlobalTechDB
            (createTechData t)))
  = Some (info_completeInit
            (default (GenericTechnologyInfo_new (mName t)) (mTechData t))) /\
  (forall db,
     mGetGlobalTech t = true ->
     mTechData (fst (completeInit aSectorName hasDepFinder (Some db) t))
     = Some (info_completeInit
               (default (GenericTechnologyInfo_new (mName t))
                  (getTechnology db (mName t) (year t))))).
Proof.
  split.
  - rewrite completeInit_mTechData.
    cbn [mGetGlobalTech mTechData mName createTechData].
    destruct (mTechData t); reflexivity.
  - intros db Hglobal. rewrite completeInit_mTechData, Hglobal.
    reflexivity.
Qed.

(** The technology that [production] returns is the one it was given, with
    the new input. *)
Lemma production_frame (aRegionName aSectorName : string) (aDemand : R)
    (aGDP : GDP) (aPeriod : Z) (t t' : technology) (calls : list Effect) :
  production aRegionName aSectorName aDemand aGDP aPeriod t
  = Some (t', calls) ->
  t' = set_input (input t') t.
Proof.
  unfold production, getEfficiency.
  destruct (Rlt_dec aDemand 0); [discriminate |].
  destruct (mTechData t) as [d |] eqn:Hd; [| discriminate].
  cbn [mbind option_bind mTechData set_input]. rewrite Hd.
  cbn [mbind option_bind].
  match goal with
  | |- context [calcEmissionsAndOutputs ?r ?i ?o ?g ?p ?t1] =>
      destruct (calcEmissionsAndOutputs r i o g p t1) as [c |]
  end; [| discriminate].
  cbn [mbind option_bind]. intros [= <- _]. reflexivity.
Qed.

(** X12: after [completeInit] the methods of a period run one after the
    other without meeting a null pointer: [calcCost], [calcShare],
    [production] with a demand that is not negative, and [calcEmission] all
    return. *)
Theorem completeInit_then_period_runs (aSectorName aRegionName : string)
    (hasDepFinder : bool) (aGlobalTechDB : option GlobalTechnologyDatabase)
    (aGDP : GDP) (aDemand : R) (aPeriod : Z) (t : technology) :
  0 <= aDemand ->
  exists t1 log1 t2 t3 calls3 t4,
    calcCost aRegionName aSectorName aPeriod
      (fst (completeInit aSectorName hasDepFinder aGlobalTechDB t))
    = Some (t1, log1) /\
    calcShare aRegionName aSectorName aGDP aPeriod t1 = Some t2 /\
    production aRegionName aSectorName aDemand aGDP aPeriod t2
    = Some (t3, calls3) /\
    calcEmission aSectorName aPeriod t3 = Some t4.
Proof.
  intros Hdmd.
  pose proof (completeInit_mTechData aSectorName hasDepFinder aGlobalTechDB t)
    as Hd0.
  set (t0 := fst (completeInit aSectorName hasDepFinder aGlobalTechDB t))
    in *.
  set (d := info_completeInit _) in Hd0.
  destruct (calcSecondaryValue_is_Some aRegionName aPeriod t0 d Hd0)
    as [sv Hsv].
  pose proof (calcCost_result aRegionName aSectorName aPeriod t0 d sv Hd0 Hsv)
    as Hcost.
  cbv zeta in Hcost.
  match type of Hcost with
  | _ = Some (?t1, ?l1) => exists t1, l1; set (t1' := t1) in *
  end.
  assert (Hd1 : mTechData t1' = Some d) by exact Hd0.
  pose proof (calcShare_result aRegionName aSectorName aGDP aPeriod t1' d Hd1)
    as Hshare.
  match type of Hshare with
  | _ = Some ?t2 => exists t2; set (t2' := t2) in *
  end.
  assert (Hd2 : mTechData t2' = Some d) by exact Hd0.
  destruct (production_result aRegionName aSectorName aDemand aGDP aPeriod
              t2' d Hd2 Hdmd) as (t3 & calls3 & Hprod & _ & _).
  exists t3, calls3.
  assert (Hd3 : mTechData t3 = Some d).
  { rewrite (production_frame _ _ _ _ _ _ _ _ Hprod). exact Hd2. }
  destruct (calcEmission_loop_emfuelmap aPeriod d (ghg t3) (∅, ∅))
    as [em Hloop].
  eexists. split; [exact Hcost |]. split; [exact Hshare |].
  split; [exact Hprod |].
  unfold calcEmission. rewrite Hd3, Hloop. reflexivity.
Qed.

(** X13: [completeInit] registers a dependency of the sector on the fuel of
    the initialised data exactly when there is a dependency finder and the
    technology is not one without input or output; no other dependency is
    registered. *)
Theorem completeInit_dependency (aSectorName : string) (hasDepFinder : bool)
    (aGlobalTechDB : option GlobalTechnologyDatabase) (t : technology)
    (sector fuel : string) :
  AddDependency sector fuel
    ∈ snd (completeInit aSectorName hasDepFinder aGlobalTechDB t)
  <-> hasDepFinder = true /\ hasNoInputOrOutput t = false /\
      sector = aSectorName /\
      getFuelName
        <$> mTechData
              (fst (completeInit aSectorName hasDepFinder aGlobalTechDB t))
      = Some fuel.
Proof.
  rewrite completeInit_mTechData. unfold completeInit. cbn [snd].
  rewrite !elem_of_app.
  match goal with
  | |- context [info_completeInit ?x] => set (d := info_completeInit x)
  end.
  assert (Hflag : forall t0, fixedOutput t0 = fixedOutput t ->
                    hasNoInputOrOutput t0 = hasNoInputOrOutput t).
  { intros t0 Ht0. unfold hasNoInputOrOutput. rewrite Ht0. reflexivity. }
  match goal with
  | |- context [hasNoInputOrOutput ?t3] =>
      assert (Hsame : hasNoInputOrOutput t3 = hasNoInputOrOutput t)
  end.
  { apply Hflag. cbn [ghgNameMap set_mTechData].
    destruct (ghgNameMap t !! CO2Emissions_getXMLNameStatic); reflexivity. }
  rewrite Hsame. split.
  - intros [Hlog | [Hinit | Hdep]].
    + destruct (bool_decide (year t = 0%Z)); cbv iota in Hlog.
      * apply list_elem_of_singleton in Hlog. discriminate.
      * by apply elem_of_nil in Hlog.
    + apply elem_of_lookup_imap in Hinit.
      destruct Hinit as (i & o & Heq & _). discriminate.
    + destruct hasDepFinder; [| by apply elem_of_nil in Hdep].
      destruct (hasNoInputOrOutput t); cbn [negb] in Hdep;
        [by apply elem_of_nil in Hdep |].
      apply list_elem_of_singleton in Hdep. injection Hdep as -> ->.
      repeat split.
  - intros (-> & Hno & -> & Hfuel). right. right. rewrite Hno. cbn [negb].
    cbn [fmap option_fmap option_map] in Hfuel. injection Hfuel as <-.
    apply list_elem_of_singleton. reflexivity.
Qed.

(** X14: [setYear] stores a positive year and stores nothing else: a year
    that is not positive is reported and the technology stays as it is.
    [completeInit] logs its error line about the year for the year 0 only, so
    not after a call of [setYear] that was accepted. *)
Theorem setYear_rejects_invalid_year (aYear : Z) (aSectorName : string)
    (hasDepFinder : bool) (aGlobalTechDB : option GlobalTechnologyDatabase)
    (t : technology) :
  ((0 < aYear)%Z ->
   year (fst (setYear aYear t)) = aYear /\
   snd (setYear aYear t) = [] /\
   forall logger level line,
     LogLine logger level line
       ∉ snd (completeInit aSectorName hasDepFinder aGlobalTechDB
                (fst (setYear aYear t)))) /\
  ((aYear <= 0)%Z ->
   fst (setYear aYear t) = t /\
   exists line, snd (setYear aYear t) = [LogLine "main_log" ERROR line]) /\
  (year t = 0%Z ->
   exists line,
     LogLine "main_log" ERROR line
       ∈ snd (completeInit aSectorName hasDepFinder aGlobalTechDB t)).
Proof.
  split; [| split].
  - intros Hpos. unfold setYear.
    rewrite bool_decide_eq_false_2 by lia. cbn [fst snd year].
    split; [reflexivity |]. split; [reflexivity |].
    intros logger level line Hin. unfold completeInit in Hin.
    cbn [snd year] in Hin. rewrite bool_decide_eq_false_2 in Hin by lia.
    rewrite !elem_of_app in Hin. destruct Hin as [Hlog | [Hinit | Hdep]].
    + by apply elem_of_nil in Hlog.
    + apply elem_of_lookup_imap in Hinit.
      destruct Hinit as (i & o & Heq & _). discriminate.
    + destruct hasDepFinder; [| by apply elem_of_nil in Hdep].
      match type of Hdep with
      | context [negb ?b] => destruct b
      end; cbn [negb] in Hdep.
      * by apply elem_of_nil in Hdep.
      * apply list_elem_of_singleton in Hdep. discriminate.
  - intros Hneg. unfold setYear. rewrite bool_decide_eq_true_2 by lia.
    cbn [fst snd]. split; [reflexivity |]. eexists. reflexivity.
  - intros Hzero. unfold completeInit. cbn [snd].
    rewrite bool_decide_eq_true_2 by exact Hzero.
    eexists. apply elem_of_app. left.
    apply list_elem_of_singleton. reflexivity.
Qed.

(** X15: when [ghgNameMap] is the index of [ghg], [getNumbGHGs], which counts
    the names of the index, is the number of GHG objects. *)
Theorem getNumbGHGs_counts_ghgs (t : technology) :
  ghgNameMap_indexes_ghg t ->
  getNumbGHGs t = Z.of_nat (length (ghg t)).
Proof.
  intros Hidx. unfold getNumbGHGs. f_equal.
  rewrite <- size_dom.
  assert (Hdom : dom (ghgNameMap t) = list_to_set (ghgNames t)).
  { apply set_eq. intros name.
    rewrite elem_of_dom, elem_of_list_to_set. split.
    - intros [i Hi]. apply Hidx in Hi. destruct Hi as [_ Hlook].
      eapply list_elem_of_lookup_2. exact Hlook.
    - intros Hin. apply list_elem_of_lookup_1 in Hin.
      destruct Hin as [k Hk]. exists (Z.of_nat k). apply Hidx.
      rewrite Nat2Z.id. split; [lia | exact Hk]. }
  rewrite Hdom.
  rewrite size_list_to_set by (apply ghgNameMap_indexes_ghg_NoDup; exact Hidx).
  unfold ghgNames. apply length_fmap.
Qed.

(** ** Further properties of the production *)

(** The technology and the calls that [production] returns. *)
Lemma production_run (aRegionName aSectorName : string) (aDemand : R)
    (aGDP : GDP) (aPeriod : Z) (t : technology) (d : ITechnologyInfo) :
  mTechData t = Some d ->
  0 <= aDemand ->
  let primaryOutput := share t * aDemand in
  let fuelInput :=
    primaryOutput / (info_getEfficiency d * (1 - getEffPenalty d)) in
  production aRegionName aSectorName aDemand aGDP aPeriod t
  = Some (set_input fuelInput t,
          (if Rlt_dec primaryOutput 0
           then [LogLine "main_log" ERROR
                   [LStr "Primary output value less than zero for technology ";
                    LStr (mName t)]]
           else [])
          ++ (if production_setsDemand (getFuelName d)
              then [AddToDemand (getFuelName d) aRegionName fuelInput aPeriod]
              else [])
          ++ imap (fun i _ =>
                     SetPhysicalOutput i primaryOutput aRegionName aPeriod)
               (mOutputs t)
          ++ imap (fun i _ =>
                     GHGCalcEmission i aRegionName (getFuelName d) fuelInput
                       aPeriod)
               (ghg t)).
Proof.
  intros Hd Hdmd primaryOutput fuelInput. unfold production, getEfficiency.
  destruct (Rlt_dec aDemand 0) as [Hneg | _]; [lra |].
  rewrite Hd. cbn [mbind option_bind mTechData set_input]. rewrite Hd.
  cbn [mbind option_bind]. unfold calcEmissionsAndOutputs.
  cbn [ghg mOutputs mTechData set_input input]. rewrite Hd.
  destruct (ghg t) as [| g gases]; cbn [mbind option_bind].
  - cbn [imap]. rewrite app_nil_r. reflexivity.
  - reflexivity.
Qed.

(** X16: [production] stores an input that, times the effective efficiency,
    is the primary output [share * aDemand]; run again on the technology it
    returns, it returns the same technology and issues the same calls. *)
Theorem production_again_changes_nothing (aRegionName aSectorName : string)
    (aDemand : R) (aGDP : GDP) (aPeriod : Z) (t t' : technology)
    (d : ITechnologyInfo) (calls : list Effect) :
  mTechData t = Some d ->
  production aRegionName aSectorName aDemand aGDP aPeriod t
  = Some (t', calls) ->
  production aRegionName aSectorName aDemand aGDP aPeriod t'
  = Some (t', calls) /\
  (info_getEfficiency d * (1 - getEffPenalty d) <> 0 ->
   input t' * (info_getEfficiency d * (1 - getEffPenalty d))
   = share t * aDemand).
Proof.
  intros Hd Hrun.
  assert (Hdmd : 0 <= aDemand).
  { unfold production in Hrun.
    destruct (Rlt_dec aDemand 0); [discriminate | lra]. }
  rewrite (production_run aRegionName aSectorName aDemand aGDP aPeriod t d
             Hd Hdmd) in Hrun.
  injection Hrun as Ht Hcalls. subst t' calls. split.
  - rewrite (production_run aRegionName aSectorName aDemand aGDP aPeriod _ d);
      [reflexivity | exact Hd | exact Hdmd].
  - intros Heff. cbn [input set_input].
    set (eff := info_getEfficiency d * (1 - getEffPenalty d)) in *.
    field. exact Heff.
Qed.

(** X17: [production] logs an error exactly when the primary output
    [share * aDemand] is negative, and goes on all the same; it passes the
    primary output to every output and the fuel input to every GHG. *)
Theorem production_calls_outputs_and_ghgs (aRegionName aSectorName : string)
    (aDemand : R) (aGDP : GDP) (aPeriod : Z) (t : technology)
    (d : ITechnologyInfo) :
  mTechData t = Some d ->
  0 <= aDemand ->
  exists t' calls,
    production aRegionName aSectorName aDemand aGDP aPeriod t
    = Some (t', calls) /\
    ((exists logger level line, LogLine logger level line ∈ calls)
     <-> share t * aDemand < 0) /\
    (forall i o, mOutputs t !! i = Some o ->
       SetPhysicalOutput i (share t * aDemand) aRegionName aPeriod ∈ calls) /\
    (forall i g, ghg t !! i = Some g ->
       GHGCalcEmission i aRegionName (getFuelName d) (input t') aPeriod
         ∈ calls).
Proof.
  intros Hd Hdmd. eexists _, _. split.
  { exact (production_run aRegionName aSectorName aDemand aGDP aPeriod t d
             Hd Hdmd). }
  cbn [input set_input]. split; [| split].
  - split.
    + intros (logger & level & line & Hin).
      rewrite !elem_of_app in Hin.
      destruct Hin as [Hlog | [Hdemand | [Hout | Hghg]]].
      * destruct (Rlt_dec (share t * aDemand) 0) as [Hneg | _];
          [exact Hneg | by apply elem_of_nil in Hlog].
      * destruct (production_setsDemand (getFuelName d));
          [| by apply elem_of_nil in Hdemand].
        apply list_elem_of_singleton in Hdemand. discriminate.
      * apply elem_of_lookup_imap in Hout.
        destruct Hout as (i & o & Heq & _). discriminate.
      * apply elem_of_lookup_imap in Hghg.
        destruct Hghg as (i & g & Heq & _). discriminate.
    + intros Hneg. eexists _, _, _. apply elem_of_app. left.
      destruct (Rlt_dec (share t * aDemand) 0) as [_ | Hn];
        [| contradiction].
      apply list_elem_of_singleton. reflexivity.
  - intros i o Hlook. rewrite !elem_of_app. right. right. left.
    apply elem_of_lookup_imap. exists i, o. split; [reflexivity | exact Hlook].
  - intros i g Hlook. rewrite !elem_of_app. right. right. right.
    apply elem_of_lookup_imap. exists i, g. split; [reflexivity | exact Hlook].
Qed.

(** ** Further properties of the emissions bookkeeping *)

(** X18: [calcEmission] rebuilds both maps from nothing: what the maps held
    before does not show in the result, and a second call returns the
    technology of the first. *)
Theorem calcEmission_rebuilds_maps (aGoodName : string) (aPeriod : Z)
    (t : technology) (oldEmiss oldEmfuel : gmap string R) :
  calcEmission aGoodName aPeriod
    (set_emfuelmap oldEmfuel (set_emissmap oldEmiss t))
  = calcEmission aGoodName aPeriod t /\
  (forall t',
     calcEmission aGoodName aPeriod t = Some t' ->
     calcEmission aGoodName aPeriod t' = Some t').
Proof.
  split; [reflexivity |].
  intros t' Hrun. unfold calcEmission in *.
  destruct (calcEmission_loop aPeriod (mTechData t) (ghg t) (∅, ∅))
    as [maps |] eqn:Hloop; [| discriminate].
  cbn [mbind option_bind] in Hrun. injection Hrun as <-.
  cbn [mTechData ghg set_emfuelmap set_emissmap]. rewrite Hloop.
  reflexivity.
Qed.

Lemma append_right_empty (s x : string) : String.append s x = s -> x = "".
Proof.
  induction s as [| a s IH]; simpl; [auto |].
  intros [= Heq]. auto.
Qed.

Lemma append_right_inj (s x y : string) :
  String.append s x = String.append s y -> x = y.
Proof.
  induction s as [| a s IH]; simpl; [auto |].
  intros [= Heq]. auto.
Qed.

(** The loop of [calcEmission] never removes a key, and leaves the entries of
    the last gas as that gas wrote them. *)
Lemma calcEmission_loop_emissmap (aPeriod : Z) (d : ITechnologyInfo)
    (gases : list AGHG) (maps maps' : gmap string R * gmap string R) :
  calcEmission_loop aPeriod (Some d) gases maps = Some maps' ->
  (forall key, is_Some (fst maps !! key) -> is_Some (fst maps' !! key)) /\
  (forall g, g ∈ gases -> is_Some (fst maps' !! ghg_getName g)) /\
  (forall g, last gases = Some g ->
     fst maps' !! ghg_getName g = Some (getEmission g aPeriod) /\
     fst maps' !! String.append (ghg_getName g) "sequestGeologic"
     = Some (getSequestAmountGeologic g) /\
     fst maps' !! String.append (ghg_getName g) "sequestNonEngy"
     = Some (getSequestAmountNonEngy g)).
Proof.
  revert maps. induction gases as [| g rest IH]; intros [em ef] Hloop.
  - injection Hloop as <-. split; [auto |]. split.
    + intros g Hin. by apply elem_of_nil in Hin.
    + intros g Hlast. discriminate.
  - cbn [calcEmission_loop mbind option_bind fst snd] in Hloop.
    destruct (IH _ Hloop) as (Hkeep & Hnames & Hlast).
    cbn [fst] in Hkeep.
    assert (Hmono : forall key, is_Some (em !! key) ->
                      is_Some (fst maps' !! key)).
    { intros key Hkey. apply Hkeep.
      rewrite !lookup_insert_is_Some'. auto. }
    split; [exact Hmono |]. split.
    + intros g0 Hin. apply elem_of_cons in Hin. destruct Hin as [-> | Hin].
      * apply Hkeep. rewrite !lookup_insert_is_Some'. auto 10.
      * apply Hnames. exact Hin.
    + intros g0 Hg0. destruct rest as [| g' rest'].
      * injection Hg0 as <-. injection Hloop as <-. cbn [fst].
        assert (Hn1 : String.append (ghg_getName g) "sequestNonEngy"
                      <> ghg_getName g).
        { intros Heq. apply append_right_empty in Heq. discriminate. }
        assert (Hn2 : String.append (ghg_getName g) "sequestGeologic"
                      <> ghg_getName g).
        { intros Heq. apply append_right_empty in Heq. discriminate. }
        assert (Hn3 : String.append (ghg_getName g) "sequestNonEngy"
                      <> String.append (ghg_getName g) "sequestGeologic").
        { intros Heq. apply append_right_inj in Heq. discriminate. }
        split; [| split].
        -- rewrite lookup_insert_ne by exact Hn1.
           rewrite lookup_insert_ne by exact Hn2.
           destruct (decide (String.append (ghg_getName g) (getFuelName d)
                             = ghg_getName g)) as [Heq | Hne].
           ++ rewrite Heq. apply lookup_insert_eq.
           ++ rewrite lookup_insert_ne by exact Hne. apply lookup_insert_eq.
        -- rewrite lookup_insert_ne by exact Hn3. apply lookup_insert_eq.
        -- apply lookup_insert_eq.
      * apply Hlast. exact Hg0.
Qed.

(** X19: after [calcEmission] the map [emissmap] has an entry under the name
    of every GHG of the technology; under the name of the last GHG it holds
    that gas's emission of the period, and under that name followed by
    "sequestGeologic" and by "sequestNonEngy" its two sequestered amounts. *)
Theorem calcEmission_emissmap_entries (aGoodName : string) (aPeriod : Z)
    (t : technology) (d : ITechnologyInfo) :
  mTechData t = Some d ->
  exists t',
    calcEmission aGoodName aPeriod t = Some t' /\
    (forall g, g ∈ ghg t -> is_Some (emissmap t' !! ghg_getName g)) /\
    (forall g, last (ghg t) = Some g ->
       emissmap t' !! ghg_getName g = Some (getEmission g aPeriod) /\
       emissmap t' !! String.append (ghg_getName g) "sequestGeologic"
       = Some (getSequestAmountGeologic g) /\
       emissmap t' !! String.append (ghg_getName g) "sequestNonEngy"
       = Some (getSequestAmountNonEngy g)).
Proof.
  intros Hd. unfold calcEmission. rewrite Hd.
  destruct (calcEmission_loop_emfuelmap aPeriod d (ghg t) (∅, ∅))
    as [em Hloop].
  rewrite Hloop. cbn [mbind option_bind]. eexists. split; [reflexivity |].
  cbn [emissmap set_emfuelmap set_emissmap fst].
  destruct (calcEmission_loop_emissmap aPeriod d (ghg t) (∅, ∅) _ Hloop)
    as (_ & Hnames & Hlast).
  split; [exact Hnames | exact Hlast].
Qed.

(** ** Further properties of the calibration *)

(** X20: a technology is available for variable output exactly when it is
    calibrated or its output is not fixed; one that is not available has
    fixed output. *)
Theorem techAvailable_and_outputFixed (t : technology) :
  techAvailable t = getCalibrationStatus t || negb (outputFixed t) /\
  (techAvailable t = false -> outputFixed t = true) /\
  (getCalibrationStatus t = true ->
   techAvailable t = true /\ outputFixed t = true).
Proof.
  unfold techAvailable, outputFixed.
  destruct (getCalibrationStatus t), (Rle_dec 0 (fixedOutput t)),
    (Req_dec_T (shrwts t) 0); cbn; repeat split; intros; congruence.
Qed.

(** What [adjustForCalibration] leaves alone. *)
Lemma adjustForCalibration_frame (subSectorDemand : R) (regionName : string)
    (period : Z) (t t' : technology) (log : list Effect) :
  adjustForCalibration subSectorDemand regionName period t = Some (t', log) ->
  techcost t' = techcost t /\ lexp t' = lexp t /\
  mTechData t' = mTechData t /\ share t' = share t.
Proof.
  unfold adjustForCalibration.
  destruct (getCalibrationOutput period t) as [calOutput |]; [| discriminate].
  cbn [mbind option_bind].
  destruct (Req_dec_T (shrwts t) 0) as [Hz | Hz];
    [destruct (Rlt_dec 0 calOutput) as [Hc | Hc] |];
    cbn [share set_shrwts shrwts];
    (destruct (Rlt_dec 0 (share t * subSectorDemand)) as [Hd | Hd];
     cbn [share set_shrwts shrwts mName];
     match goal with
     | |- context [Rlt_dec ?w 0] =>
         destruct (Rlt_dec w 0) as [Hneg | Hneg]
     end;
     intros [= <- _]; repeat split).
Qed.

(** X21: for a technology without calibration output in the period
    ([getCalibrationOutput] is 0) and with a positive technology demand,
    [adjustForCalibration] sets the share weight to 0. *)
Theorem adjustForCalibration_without_calibration_zeroes_weight
    (subSectorDemand : R) (regionName : string) (period : Z)
    (t : technology) :
  getCalibrationOutput period t = Some 0 ->
  0 < share t * subSectorDemand ->
  exists t' log,
    adjustForCalibration subSectorDemand regionName period t
    = Some (t', log) /\
    shrwts t' = 0.
Proof.
  intros Hcal Hdemand.
  destruct (adjustForCalibration_result subSectorDemand regionName period t 0
              Hcal) as (t' & Hrun & Hw & _).
  exists t'. eexists. split; [exact Hrun |]. rewrite Hw.
  unfold resetWeight_spec, scaledWeight_spec, bumpedWeight_spec.
  destruct (Rlt_dec 0 (share t * subSectorDemand)) as [_ | Hn];
    [| contradiction].
  assert (Hzero : forall w, w * (0 / (share t * subSectorDemand)) = 0).
  { intros w. unfold Rdiv. ring. }
  rewrite Hzero. destruct (Rlt_dec 0 0); [lra | reflexivity].
Qed.

(** X22: the share that [calcShare] computes is proportional to the share
    weight: after [scaleShareWeight] it is scaled by the same value.  So,
    for a technology with a positive weight and a positive technology
    demand, [calcShare] after [adjustForCalibration] gives the share of
    before times [calOutput / technologyDemand]. *)
Theorem calcShare_proportional_to_share_weight
    (aRegionName aSectorName : string) (aGDP : GDP) (aPeriod : Z)
    (t : technology) (d : ITechnologyInfo) (scaleValue : R) :
  mTechData t = Some d ->
  exists t0 t1,
    calcShare aRegionName aSectorName aGDP aPeriod t = Some t0 /\
    calcShare aRegionName aSectorName aGDP aPeriod
      (scaleShareWeight scaleValue t) = Some t1 /\
    share t1 = share t0 * scaleValue /\
    (forall subSectorDemand calOutput tc log,
       adjustForCalibration subSectorDemand aRegionName aPeriod t
       = Some (tc, log) ->
       getCalibrationOutput aPeriod t = Some calOutput ->
       0 < shrwts t -> 0 < share t * subSectorDemand -> 0 <= calOutput ->
       exists t2,
         calcShare aRegionName aSectorName aGDP aPeriod tc = Some t2 /\
         share t2
         = share t0 * (calOutput / (share t * subSectorDemand))).
Proof.
  intros Hd. eexists _, _. split; [| split; [| split]].
  - apply calcShare_result. exact Hd.
  - apply calcShare_result. exact Hd.
  - cbn [share set_share shrwts techcost lexp scaleShareWeight set_shrwts].
    destruct (Req_dec_T (getFuelPrefElasticity d) 0); ring.
  - intros subSectorDemand calOutput tc log Hrun Hcal Hw Hdemand Hcalpos.
    destruct (adjustForCalibration_frame _ _ _ _ _ _ Hrun)
      as (Hcost & Hexp & Hdata & _).
    destruct (adjustForCalibration_result subSectorDemand aRegionName aPeriod
                t calOutput Hcal) as (tc' & Hrun' & Hweight & _).
    rewrite Hrun in Hrun'. injection Hrun' as <- _.
    assert (Hdc : mTechData tc = Some d) by (rewrite Hdata; exact Hd).
    eexists. split; [apply calcShare_result; exact Hdc |].
    cbn [share set_share]. rewrite Hcost, Hexp, Hweight.
    unfold resetWeight_spec, scaledWeight_spec, bumpedWeight_spec.
    destruct (Req_dec_T (shrwts t) 0) as [Hz | _]; [lra |].
    destruct (Rlt_dec 0 (share t * subSectorDemand)) as [_ | Hn];
      [| contradiction].
    assert (Hscaled : 0 <= shrwts t * (calOutput / (share t * subSectorDemand))).
    { apply Rmult_le_pos; [lra |]. unfold Rdiv.
      apply Rmult_le_pos; [exact Hcalpos |].
      left. apply Rinv_0_lt_compat. exact Hdemand. }
    destruct (Rlt_dec (shrwts t * (calOutput / (share t * subSectorDemand)))
                0) as [Hneg | _]; [lra |].
    destruct (Req_dec_T (getFuelPrefElasticity d) 0); ring.
Qed.

(** X23: after [initCalc] a calibration value is left only if the input it
    asks for is not negative, so that [getCalibrationInput] is never negative
    afterwards; a technology without calibration value stays without. *)
Theorem initCalc_removes_negative_calibration
    (aRegionName aSectorName : string) (aPeriod : Z) (t : technology)
    (d : ITechnologyInfo) :
  mTechData t = Some d ->
  exists t' log calls,
    initCalc aRegionName aSectorName aPeriod t = Some (t', (log, calls)) /\
    (forall per calInput,
       getCalibrationInput per t' = Some calInput -> 0 <= calInput) /\
    (mCalValue t = None -> mCalValue t' = None /\ log = []) /\
    (mCalValue t' = None -> mCalValue t <> None ->
     exists line, log = [LogLine "main_log" DEBUG line]).
Proof.
  intros Hd. unfold initCalc, getCalibrationInput, getEfficiency.
  cbn [mCalValue mTechData set_mCalValue]. rewrite Hd.
  assert (Hgases : forall t2, mTechData t2 = Some d ->
            exists gases,
              match ghg t2 with
              | [] => Some []
              | _ :: _ =>
                  d0 ← mTechData t2;
                  Some (imap (fun i _ =>
                                GHGInitCalc i aRegionName (getFuelName d0)
                                  aPeriod)
                          (ghg t2))
              end = Some gases).
  { intros t2 Ht2. rewrite Ht2. destruct (ghg t2); eexists; reflexivity. }
  destruct (mCalValue t) as [cal |]; cbn [fmap option_fmap option_map].
  - cbn [mbind option_bind].
    destruct (Rlt_dec
                (getCalInput (ICalData_initCalc aPeriod cal)
                   (info_getEfficiency d * (1 - getEffPenalty d))) 0)
      as [Hneg | Hok]; cbn [mbind option_bind fst snd].
    + destruct (Hgases (set_mCalValue None
                          (set_mCalValue
                             (Some (ICalData_initCalc aPeriod cal)) t)) Hd)
        as [gases Hg].
      rewrite Hg. cbn [mbind option_bind].
      eexists _, _, _. split; [reflexivity |].
      cbn [mCalValue set_mCalValue]. split; [| split].
      * intros per calInput [= <-]. lra.
      * intros Hnone. discriminate.
      * intros _ _. eexists. reflexivity.
    + destruct (Hgases (set_mCalValue
                          (Some (ICalData_initCalc aPeriod cal)) t) Hd)
        as [gases Hg].
      rewrite Hg. cbn [mbind option_bind].
      eexists _, _, _. split; [reflexivity |].
      cbn [mCalValue mTechData year set_mCalValue].
      split; [| split].
      * intros per calInput.
        destruct (bool_decide (year t = getper_to_yr per));
          cbn [mbind option_bind mTechData set_mCalValue];
          rewrite ?Hd; cbn [mbind option_bind]; intros [= <-]; lra.
      * intros Hnone. discriminate.
      * intros Hnone. discriminate.
  - cbn [mbind option_bind fst snd].
    destruct (Hgases (set_mCalValue None t) Hd) as [gases Hg].
    rewrite Hg. cbn [mbind option_bind].
    eexists _, _, _. split; [reflexivity |].
    cbn [mCalValue set_mCalValue]. split; [| split].
    + intros per calInput [= <-]. lra.
    + intros _. split; reflexivity.
    + intros _ Hcontra. contradiction.
Qed.

(** X24: on a fuel with a market, [tabulateFixedDemands] of a technology
    whose output is not fixed sets the counter "calDemand" to -1 and writes
    nothing else; for a technology with fixed output it writes both counters,
    each as its old value, taken as 0 when negative, plus the input of the
    technology: the calibration input, which counts for "calDemand" only, or
    else the fixed input, which counts for both.  Without a market for the
    fuel nothing is written. *)
Theorem tabulateFixedDemands_counters (regionName : string) (period : Z)
    (t : technology) (d : ITechnologyInfo) :
  mTechData t = Some d ->
  (getMarketInfo (getFuelName d) regionName period = None ->
   tabulateFixedDemands regionName period t = Some []) /\
  (forall getDouble,
     getMarketInfo (getFuelName d) regionName period = Some getDouble ->
     (outputFixed t = false ->
      tabulateFixedDemands regionName period t
      = Some [SetDouble "calDemand" (-1)]) /\
     (outputFixed t = true ->
      exists fixedOrCalInput fixedInput,
        tabulateFixedDemands regionName period t
        = Some [SetDouble "calDemand"
                  (Rmax (getDouble "calDemand") 0 + fixedOrCalInput);
                SetDouble "calFixedDemand"
                  (Rmax (getDouble "calFixedDemand") 0 + fixedInput)] /\
        (getCalibrationStatus t = true ->
         getCalibrationInput period t = Some fixedOrCalInput /\
         fixedInput = 0) /\
        (getCalibrationStatus t = false -> 0 <= fixedOutput t ->
         getFixedInput period t = Some fixedOrCalInput /\
         fixedInput = fixedOrCalInput) /\
        (getCalibrationStatus t = false -> fixedOutput t < 0 ->
         fixedOrCalInput = 0 /\ fixedInput = 0))).
Proof.
  intros Hd. unfold tabulateFixedDemands. rewrite Hd.
  cbn [mbind option_bind]. split.
  - intros Hnone. rewrite Hnone. reflexivity.
  - intros getDouble Hinfo. rewrite Hinfo. split.
    + intros Hvar. rewrite Hvar. reflexivity.
    + intros Hfixed. rewrite Hfixed. rewrite <- !std_max_Rmax.
      destruct (getCalibrationStatus t) eqn:Hcal.
      * assert (Hsome : exists x, getCalibrationInput period t = Some x).
        { unfold getCalibrationInput, getEfficiency. rewrite Hd.
          destruct (mCalValue t); [| eexists; reflexivity].
          destruct (bool_decide (year t = getper_to_yr period));
            eexists; reflexivity. }
        destruct Hsome as [x Hx]. rewrite Hx. cbn [mbind option_bind fst snd].
        exists x, 0. split; [reflexivity |].
        split; [auto |]. split; intros; discriminate.
      * destruct (Rle_dec 0 (fixedOutput t)) as [Hf | Hv].
        -- assert (Hsome : exists x, getFixedInput period t = Some x).
           { unfold getFixedInput, getEfficiency. rewrite Hd.
             destruct (Req_dec_T (fixedOutputVal t) getFixedOutputDefault);
               [eexists; reflexivity |].
             destruct (bool_decide (year t ≠ getper_to_yr period));
               eexists; reflexivity. }
           destruct Hsome as [x Hx]. rewrite Hx.
           cbn [mbind option_bind fst snd].
           exists x, x. split; [reflexivity |].
           split; [intros; discriminate |]. split; [auto |].
           intros _ Hneg. lra.
        -- cbn [mbind option_bind fst snd].
           exists 0, 0. split; [reflexivity |].
           split; [intros; discriminate |]. split; [| auto].
           intros _ Hpos. contradiction.
Qed.

(** ** Properties of [clone] *)

(** X25: a clone has every member of its original except the note, which is
    empty; the methods of a period do on the clone what they do on the
    original: [calcCost], [calcShare] and [production] return the clone of
    what they return for the original, with the same calls. *)
Theorem clone_behaves_as_original (aRegionName aSectorName : string)
    (aDemand : R) (aGDP : GDP) (aPeriod : Z) (t : technology) :
  note (clone t) = "" /\
  (note t = "" -> clone t = t) /\
  calcCost aRegionName aSectorName aPeriod (clone t)
  = (fun r => (clone (fst r), snd r))
      <$> calcCost aRegionName aSectorName aPeriod t /\
  calcShare aRegionName aSectorName aGDP aPeriod (clone t)
  = clone <$> calcShare aRegionName aSectorName aGDP aPeriod t /\
  production aRegionName aSectorName aDemand aGDP aPeriod (clone t)
  = (fun r => (clone (fst r), snd r))
      <$> production aRegionName aSectorName aDemand aGDP aPeriod t.
Proof.
  split; [reflexivity |]. split.
  { intros Hnote. destruct t. cbn in Hnote. subst. reflexivity. }
  split; [| split].
  - destruct (mTechData t) as [d |] eqn:Hd.
    + destruct (calcSecondaryValue_is_Some aRegionName aPeriod t d Hd)
        as [sv Hsv].
      rewrite (calcCost_result aRegionName aSectorName aPeriod t d sv Hd Hsv).
      rewrite (calcCost_result aRegionName aSectorName aPeriod (clone t) d sv
                 Hd Hsv).
      reflexivity.
    + unfold calcCost. cbn [mTechData clone]. rewrite Hd. reflexivity.
  - destruct (mTechData t) as [d |] eqn:Hd.
    + rewrite (calcShare_result aRegionName aSectorName aGDP aPeriod t d Hd).
      rewrite (calcShare_result aRegionName aSectorName aGDP aPeriod (clone t)
                 d Hd).
      reflexivity.
    + unfold calcShare. cbn [mTechData clone]. rewrite Hd. reflexivity.
  - destruct (Rlt_dec aDemand 0) as [Hneg | Hpos].
    + unfold production. destruct (Rlt_dec aDemand 0); [| contradiction].
      reflexivity.
    + assert (Hdmd : 0 <= aDemand) by lra.
      destruct (mTechData t) as [d |] eqn:Hd.
      * rewrite (production_run aRegionName aSectorName aDemand aGDP aPeriod
                   t d Hd Hdmd).
        rewrite (production_run aRegionName aSectorName aDemand aGDP aPeriod
                   (clone t) d Hd Hdmd).
        reflexivity.
      * unfold production, getEfficiency. cbn [mTechData clone].
        rewrite Hd. destruct (Rlt_dec aDemand 0); reflexivity.
Qed.

End Model.

(** ** The cost under two marketplaces *)

(** X26: a higher market price of the fuel never lowers the cost: for a
    technology with a fuel multiplier and a price multiplier that are not
    negative and a positive effective efficiency, the fuel cost and the total
    cost that [calcCost] stores are monotone in the price of the fuel. *)
Theorem calcCost_monotone_in_fuel_price
    (getSmallNumber getLargeNumber NO_MARKET_PRICE : R)
    (getPrice1 getPrice2 : string -> string -> Z -> R)
    (regionName sectorName : string) (per : Z) (t : technology)
    (d : ITechnologyInfo) :
  mTechData t = Some d ->
  getFuelName d <> "none" -> getFuelName d <> "" ->
  getFuelName d <> "renewable" ->
  getPrice1 (getFuelName d) regionName per <> NO_MARKET_PRICE ->
  getPrice2 (getFuelName d) regionName per <> NO_MARKET_PRICE ->
  getPrice1 (getFuelName d) regionName per
  <= getPrice2 (getFuelName d) regionName per ->
  0 <= getFMultiplier d ->
  0 < info_getEfficiency d * (1 - getEffPenalty d) ->
  0 <= pMultiplier t ->
  exists t1 log1 t2 log2,
    calcCost getSmallNumber getLargeNumber NO_MARKET_PRICE getPrice1
      regionName sectorName per t = Some (t1, log1) /\
    calcCost getSmallNumber getLargeNumber NO_MARKET_PRICE getPrice2
      regionName sectorName per t = Some (t2, log2) /\
    fuelcost t1 <= fuelcost t2 /\
    techcost t1 <= techcost t2.
Proof.
  intros Hd Hnone Hempty Hren Hp1 Hp2 Hle Hmul Heff Hpm.
  destruct (calcSecondaryValue_is_Some regionName per t d Hd) as [sv Hsv].
  eexists _, _, _, _. split; [| split].
  { exact (calcCost_result getSmallNumber getLargeNumber NO_MARKET_PRICE
             getPrice1 regionName sectorName per t d sv Hd Hsv). }
  { exact (calcCost_result getSmallNumber getLargeNumber NO_MARKET_PRICE
             getPrice2 regionName sectorName per t d sv Hd Hsv). }
  cbn [fuelcost techcost set_techcost set_fuelcost].
  destruct (calcCost_fuelprice_cases getLargeNumber NO_MARKET_PRICE getPrice1
              regionName sectorName per (mName t) d) as [_ Hc1].
  destruct (calcCost_fuelprice_cases getLargeNumber NO_MARKET_PRICE getPrice2
              regionName sectorName per (mName t) d) as [_ Hc2].
  destruct (Hc1 Hnone Hempty Hren) as [_ Hm1].
  destruct (Hc2 Hnone Hempty Hren) as [_ Hm2].
  rewrite (Hm1 Hp1), (Hm2 Hp2).
  set (p1 := getPrice1 (getFuelName d) regionName per) in *.
  set (p2 := getPrice2 (getFuelName d) regionName per) in *.
  set (eff := info_getEfficiency d * (1 - getEffPenalty d)) in *.
  assert (Hinv : 0 < / eff) by (apply Rinv_0_lt_compat; exact Heff).
  assert (Hfuel : p1 * getFMultiplier d / eff <= p2 * getFMultiplier d / eff).
  { unfold Rdiv. apply Rmult_le_compat_r; [lra |].
    apply Rmult_le_compat_r; assumption. }
  split; [exact Hfuel |].
  assert (Htotal :
    (p1 * getFMultiplier d / eff
     + info_getNonEnergyCost d * (1 + getNECostPenalty d)) * pMultiplier t
    - sv
    <= (p2 * getFMultiplier d / eff
        + info_getNonEnergyCost d * (1 + getNECostPenalty d)) * pMultiplier t
       - sv).
  { apply Rplus_le_compat_r. apply Rmult_le_compat_r; [exact Hpm |]. lra. }
  unfold std_max.
  repeat match goal with
         | |- context [Rlt_dec ?a ?b] => destruct (Rlt_dec a b)
         end; lra.
Qed.

(** ** Examples

    The theorems above, run on the example objects. *)

(** [normShare] on a share of 0.5: 0 for the sum 0, a quarter for the sum
    2. *)
Lemma normShare_zero_or_divide_example :
  normShare 0 example_coalTech = Some (set_share 0 example_coalTech) /\
  normShare 2 example_coalTech
  = Some (set_share (share example_coalTech / 2) example_coalTech).
Proof.
  destruct (normShare_zero_or_divide 2 example_coalTech)
    as (Hzero & _ & Hdiv & _).
  split; [exact Hzero |].
  assert (Hsum : 2 <> 0) by lra.
  exact (Hdiv Hsum).
Defined.

(** [adjShares] without fixed output in the subsector leaves a technology as
    it is. *)
Lemma adjShares_without_fixed_output_is_noop_example :
  adjShares 100 0 1 2 example_fixedTech = example_fixedTech.
Proof.
  assert (Hnone : 0 <= 0) by lra.
  exact (proj1 (adjShares_without_fixed_output_is_noop 100 0 1 2
                  example_fixedTech Hnone)).
Defined.

(** The scenario of the specification for [adjShares]: demand 100, of which
    40 are fixed, and a variable share total of 1. *)
Lemma adjShares_fixed_and_variable_shares_example :
  share (adjShares 100 40 1 2 example_fixedTech) = 0.4 /\
  share (adjShares 100 40 1 2 example_variableTech) = 0.6.
Proof.
  assert (Hfix : 0 < 40) by lra.
  split.
  - pose proof (adjShares_fixed_and_variable_shares 100 40 1 2
                  example_fixedTech Hfix) as Hthm.
    cbv zeta in Hthm. destruct Hthm as (_ & _ & H40 & _).
    apply H40. reflexivity.
  - pose proof (adjShares_fixed_and_variable_shares 100 40 1 2
                  example_variableTech Hfix) as Hthm.
    cbv zeta in Hthm. destruct Hthm as (_ & _ & _ & H60).
    apply H60; [simpl; lra | reflexivity].
Defined.

(** The scenario of the specification for [getFixedInput]: fixed output 50 at
    efficiency 0.25, vintage 1990, which is period 1. *)
Lemma getFixedInput_vintage_year_example :
  getFixedInput example_per_to_yr 1 (resetFixedOutput 1 example_fixed50)
  = Some 200 /\
  getFixedInput example_per_to_yr 2 (resetFixedOutput 2 example_fixed50)
  = Some 0.
Proof.
  assert (Heff : info_getEfficiency (example_info "coal" 0.25 0)
                 * (1 - getEffPenalty (example_info "coal" 0.25 0)) = 0.25)
    by (simpl; lra).
  split.
  - destruct (getFixedInput_vintage_year example_per_to_yr 1 example_fixed50)
      as (_ & _ & _ & Hspec).
    destruct (Hspec (example_info "coal" 0.25 0) 1%Z eq_refl eq_refl Heff)
      as [Hvintage _].
    apply Hvintage. reflexivity.
  - destruct (getFixedInput_vintage_year example_per_to_yr 2 example_fixed50)
      as (_ & _ & _ & Hspec).
    destruct (Hspec (example_info "coal" 0.25 0) 2%Z eq_refl eq_refl Heff)
      as [_ Hother].
    apply Hother. discriminate.
Defined.

(** The scenario of the specification for [calcCost]: the fuel costs 10, the
    efficiency is 0.5, the non-energy cost is 2. *)
Lemma calcCost_fuel_and_total_cost_example :
  exists t' log,
    calcCost 1e-6 1e6 1e6 example_getPrice "USA" "electricity" 1
      example_coalTech
    = Some (t', log) /\
    fuelcost t' = 20 /\ techcost t' = 22.
Proof.
  assert (Hsmall : 0 < 1e-6) by lra.
  destruct (calcCost_fuel_and_total_cost 1e-6 1e6 1e6 example_getPrice
              "USA" "electricity" 1 example_coalTech
              (example_info "coal" 0.5 0) 0 eq_refl eq_refl Hsmall)
    as (t' & log & Hrun & _ & _ & _ & Hscenario).
  exists t', log. split; [exact Hrun |].
  apply Hscenario; simpl; try discriminate; try reflexivity; lra.
Defined.

(** A technology of weight 1 and exponent -6 has a smaller share at cost 2
    than at cost 1. *)
Lemma calcShare_decreasing_in_total_cost_example :
  exists t1 t2,
    calcShare "USA" "electricity" example_gdp 1
      (set_techcost 1 example_coalTech) = Some t1 /\
    calcShare "USA" "electricity" example_gdp 1
      (set_techcost 2 example_coalTech) = Some t2 /\
    share t2 < share t1.
Proof.
  assert (Hgdp : getFuelPrefElasticity (example_info "coal" 0.5 0) <> 0 ->
                 0 < getBestScaledGDPperCap example_gdp 1)
    by (intros _; simpl; lra).
  destruct (calcShare_decreasing_in_total_cost "USA" "electricity"
              example_gdp 1 example_coalTech (example_info "coal" 0.5 0)
              eq_refl Hgdp) as (Hdecreasing & _ & _).
  apply Hdecreasing.
  - simpl. lra.
  - simpl. unfold LOGIT_EXP_DEFAULT. lra.
  - lra.
  - lra.
Defined.

(** A weight of 0 with calibration output 30, share 0.5 and demand 100 does
    not stay 0. *)
Lemma adjustForCalibration_share_weight_example :
  exists t' log,
    adjustForCalibration example_per_to_yr false 100 "USA" 1
      example_calibratedTech
    = Some (t', log) /\
    shrwts t' <> 0.
Proof.
  destruct (adjustForCalibration_share_weight example_per_to_yr false 100
              "USA" 1 example_calibratedTech 30 eq_refl)
    as (t' & log & Hrun & _ & _ & _ & _ & _ & _ & Hnonzero).
  exists t', log. split; [exact Hrun |].
  apply Hnonzero; [reflexivity | lra].
Defined.

(** A technology with the empty fuel name, a share of 0.5 and a demand of 10:
    [production] adds demand to the marketplace under the empty name. *)
Lemma production_registers_demand_for_empty_fuel_example :
  exists t' calls,
    production "USA" "electricity" 10 example_gdp 1 example_unnamedFuelTech
    = Some (t', calls) /\
    demandCalls calls = [AddToDemand "" "USA" (0.5 * 10 / (1 * (1 - 0))) 1].
Proof.
  assert (Hdmd : 0 <= 10) by lra.
  exact (production_registers_demand_for_empty_fuel "USA" "electricity" 10
           example_gdp 1 example_unnamedFuelTech (example_info "" 1 0)
           eq_refl eq_refl Hdmd).
Defined.

(** With the gases CO2 and CH4 on coal, the by-fuel map has the single entry
    of coal, with the fuel emission of CH4. *)
Lemma calcEmission_emfuelmap_single_entry_example :
  exists t',
    calcEmission "electricity" 1 example_twoGasTech = Some t' /\
    emfuelmap t' = {[ "coal" := 9 ]}.
Proof.
  assert (Hghg : ghg example_twoGasTech <> []) by discriminate.
  destruct (calcEmission_emfuelmap_single_entry "electricity" 1
              example_twoGasTech (example_info "coal" 1 0) eq_refl Hghg)
    as (t' & g & Hrun & Hlast & Hmap & _).
  exists t'. split; [exact Hrun |].
  injection Hlast as <-. exact Hmap.
Defined.

(** A technology that comes out of the constructor without any GHG has, after
    [completeInit], the CO2 source and, at position 0, the primary output. *)
Lemma completeInit_ghgs_and_primary_output_example :
  ghgNames
    (fst (completeInit example_isEqual (fun _ => example_info "" 1 0)
            (fun d => d) (example_ghg "CO2" 0) "CO2" "electricity" true None
            (new_technology "boiler" 1990)))
  = ["CO2"] /\
  mOutputs
    (fst (completeInit example_isEqual (fun _ => example_info "" 1 0)
            (fun d => d) (example_ghg "CO2" 0) "CO2" "electricity" true None
            (new_technology "boiler" 1990)))
  !! 0%nat
  = Some (PrimaryOutput_new "electricity").
Proof.
  pose proof (completeInit_ghgs_and_primary_output example_isEqual
                (fun _ => example_info "" 1 0) (fun d => d)
                (example_ghg "CO2" 0) "CO2" "electricity" true None
                (new_technology "boiler" 1990) eq_refl
                (new_technology_indexes_ghg "boiler" 1990)) as Hthm.
  cbv zeta in Hthm.
  destruct Hthm as (_ & _ & _ & Hpush & _ & Hprimary & _).
  split; [| exact Hprimary].
  unfold ghgNames. rewrite Hpush; [reflexivity |].
  unfold ghgNames. simpl. apply not_elem_of_nil.
Defined.

(** ** Examples of the further properties *)

(** The sums of the example subsector. *)
Lemma example_subsector_sums :
  sumFixedOutput example_subsector = 40 /\
  sumVariableShares example_subsector = 1 /\
  sumShares example_subsector = 1.
Proof.
  unfold sumFixedOutput, sumVariableShares, sumShares. simpl.
  destruct (Rle_dec 0 40) as [_ | Hn]; [| lra].
  destruct (Rle_dec 0 (-1)) as [Hp | _]; [lra |].
  repeat split; lra.
Qed.

(** Two gases without value and no outputs: the secondary value is the
    negated GHG cost. *)
Lemma calcSecondaryValue_is_output_value_minus_ghg_cost_example :
  exists ghgCost,
    getTotalGHGCost "USA" 1 example_twoGasTech = Some ghgCost /\
    calcSecondaryValue "USA" 1 example_twoGasTech
    = Some (foldr (fun o acc => getValue o "USA" 1 + acc) 0
              (mOutputs example_twoGasTech)
            - ghgCost).
Proof.
  exact (calcSecondaryValue_is_output_value_minus_ghg_cost "USA" 1
           example_twoGasTech (example_info "coal" 1 0) eq_refl).
Defined.

(** A fuel without name costs nothing in a marketplace where every fuel costs
    10. *)
Lemma calcCost_unpriced_fuel_costs_nothing_example :
  exists t',
    calcCost 1e-6 1e6 1e6 example_getPrice "USA" "electricity" 1
      example_unnamedFuelTech
    = Some (t', []) /\
    fuelcost t' = 0.
Proof.
  exact (calcCost_unpriced_fuel_costs_nothing 1e-6 1e6 1e6 example_getPrice
           "USA" "electricity" 1 example_unnamedFuelTech
           (example_info "" 1 0) eq_refl (or_intror (or_introl eq_refl))).
Defined.

(** Coal without a market price: one error line, and a fuel cost computed
    from the large number. *)
Lemma calcCost_missing_price_uses_large_number_example :
  exists t' line,
    calcCost 1e-6 1e6 1e6 example_getPrice_missing "USA" "electricity" 1
      example_coalTech
    = Some (t', [LogLine "main_log" ERROR line]) /\
    fuelcost t' = 1e6 * 1 / (0.5 * (1 - 0)) /\
    1e-6 <= techcost t'.
Proof.
  assert (Hnone : "coal"%string <> "none"%string) by discriminate.
  assert (Hempty : "coal"%string <> ""%string) by discriminate.
  assert (Hren : "coal"%string <> "renewable"%string) by discriminate.
  exact (calcCost_missing_price_uses_large_number 1e-6 1e6 1e6
           example_getPrice_missing "USA" "electricity" 1 example_coalTech
           (example_info "coal" 0.5 0) eq_refl Hnone Hempty Hren eq_refl).
Defined.

(** [calcCost] twice on the coal technology. *)
Lemma calcCost_again_changes_nothing_example :
  exists t' log,
    calcCost 1e-6 1e6 1e6 example_getPrice "USA" "electricity" 1
      example_coalTech
    = Some (t', log) /\
    calcCost 1e-6 1e6 1e6 example_getPrice "USA" "electricity" 1 t'
    = Some (t', log).
Proof.
  pose proof (calcCost_result 1e-6 1e6 1e6 example_getPrice "USA"
                "electricity" 1 example_coalTech (example_info "coal" 0.5 0)
                0 eq_refl eq_refl) as Hrun.
  cbv zeta in Hrun. eexists _, _. split; [exact Hrun |].
  exact (calcCost_again_changes_nothing 1e-6 1e6 1e6 example_getPrice "USA"
           "electricity" 1 example_coalTech _ _ Hrun).
Defined.

(** The technology fixed at 40, scaled to a half and reset. *)
Lemma resetFixedOutput_discards_scaling_example :
  fixedOutputVal
    (resetFixedOutput 1 (scaleFixedOutput 0.5 example_fixedTech))
  = 40.
Proof.
  assert (Hfix : 0 <= fixedOutput example_fixedTech) by (simpl; lra).
  exact (proj1 (resetFixedOutput_discards_scaling 0.5 100 40 1 1
                  example_fixedTech Hfix)).
Defined.

(** The example subsector, with a fixed output of 40, scaled down to a demand
    of 20. *)
Lemma scaleFixedOutput_scales_subsector_example :
  sumFixedOutput
    (scaleFixedOutput (20 / sumFixedOutput example_subsector)
       <$> example_subsector)
  = 20.
Proof.
  assert (Hpos : 0 < sumFixedOutput example_subsector).
  { rewrite (proj1 example_subsector_sums). lra. }
  assert (Hdmd : 0 <= 20) by lra.
  exact (proj2 (proj2 (scaleFixedOutput_scales_subsector 0.5 20
                         example_subsector)) Hpos Hdmd).
Defined.

(** The technology fixed at 40 in its vintage year, period 1. *)
Lemma getFixedInput_is_input_required_for_fixed_output_example :
  getFixedInput example_per_to_yr 1 example_fixedTech
  = getInputRequiredForOutput (getFixedOutput example_fixedTech) 1
      example_fixedTech.
Proof.
  assert (Heff : 0 < info_getEfficiency (example_info "coal" 1 0)
                     * (1 - getEffPenalty (example_info "coal" 1 0)))
    by (simpl; lra).
  exact (getFixedInput_is_input_required_for_fixed_output example_per_to_yr 1
           example_fixedTech (example_info "coal" 1 0) eq_refl Heff eq_refl).
Defined.

(** A fixed output of 150 against a demand of 100. *)
Lemma adjShares_downgrades_fixed_output_example :
  fixedOutputVal (adjShares 100 150 1 1 example_oversizedTech) = 150 /\
  1 < share (adjShares 100 150 1 1 example_oversizedTech).
Proof.
  assert (Hfix : 0 < 150) by lra.
  assert (Hdmd : 0 < 100) by lra.
  assert (Hover : 100 < fixedOutputVal example_oversizedTech)
    by (simpl; lra).
  exact (proj1 (adjShares_downgrades_fixed_output 100 150 1 1
                  example_oversizedTech Hfix) Hdmd Hover).
Defined.

(** The example subsector at a demand of 100: the shares 0.4 and 0.6 add up
    to 1. *)
Lemma adjShares_shares_add_up_to_one_example :
  sumShares (adjShares 100 40 1 1 <$> example_subsector) = 1.
Proof.
  destruct example_subsector_sums as (Hfixed & Hvariable & _).
  assert (Hpos : 0 < 40) by lra.
  assert (Hle : 40 <= 100) by lra.
  assert (Hvar : 1 <> 0) by lra.
  exact (adjShares_shares_add_up_to_one 100 40 1 1 example_subsector
           (eq_sym Hfixed) (eq_sym Hvariable) Hpos Hle Hvar).
Defined.

(** The example subsector, normalised by the sum of its shares. *)
Lemma normShare_shares_add_up_to_one_example :
  exists techs',
    mapM (normShare (sumShares example_subsector)) example_subsector
    = Some techs' /\
    sumShares techs' = 1.
Proof.
  assert (Hsum : sumShares example_subsector <> 0).
  { rewrite (proj2 (proj2 example_subsector_sums)). lra. }
  exact (proj1 (normShare_shares_add_up_to_one example_subsector) Hsum).
Defined.

(** A technology flagged as global gets the data of the database. *)
Lemma completeInit_own_or_global_data_example :
  mTechData
    (fst (completeInit example_isEqual example_genericInfo (fun d => d)
            (example_ghg "CO2" 0) "CO2" "electricity" true (Some example_db)
            example_globalTech))
  = Some (example_info "gas" 0.4 0).
Proof.
  exact (proj2 (completeInit_own_or_global_data example_isEqual
                  example_genericInfo (fun d => d) (example_ghg "CO2" 0)
                  "CO2" "electricity" true (Some example_db)
                  example_globalTech)
           example_db eq_refl).
Defined.

(** A technology that comes out of the constructor runs through a period
    after [completeInit]. *)
Lemma completeInit_then_period_runs_example :
  exists t1 log1 t2 t3 calls3 t4,
    calcCost 1e-6 1e6 1e6 example_getPrice "USA" "electricity" 1
      (fst (completeInit example_isEqual example_genericInfo (fun d => d)
              (example_ghg "CO2" 0) "CO2" "electricity" true None
              (new_technology "boiler" 1990)))
    = Some (t1, log1) /\
    calcShare "USA" "electricity" example_gdp 1 t1 = Some t2 /\
    production "USA" "electricity" 10 example_gdp 1 t2 = Some (t3, calls3) /\
    calcEmission "electricity" 1 t3 = Some t4.
Proof.
  assert (Hdmd : 0 <= 10) by lra.
  exact (completeInit_then_period_runs 1e-6 1e6 example_isEqual 1e6
           example_getPrice example_genericInfo (fun d => d)
           (example_ghg "CO2" 0) "CO2" "electricity" "USA" true None
           example_gdp 10 1 (new_technology "boiler" 1990) Hdmd).
Defined.

(** A technology without fixed output registers the dependency of its sector
    on its fuel, here the fuel without name of the default data. *)
Lemma completeInit_dependency_example :
  AddDependency "electricity" ""
    ∈ snd (completeInit example_isEqual example_genericInfo (fun d => d)
             (example_ghg "CO2" 0) "CO2" "electricity" true None
             (new_technology "boiler" 1990)).
Proof.
  apply (completeInit_dependency example_isEqual example_genericInfo
           (fun d => d) (example_ghg "CO2" 0) "CO2" "electricity" true None
           (new_technology "boiler" 1990) "electricity" "").
  split; [reflexivity |]. split; [| split; [reflexivity |]].
  - unfold hasNoInputOrOutput, example_isEqual. simpl.
    destruct (Req_dec_T getFixedOutputDefault 0) as [Heq | _];
      [| reflexivity].
    unfold getFixedOutputDefault in Heq. lra.
  - rewrite completeInit_mTechData. reflexivity.
Defined.

(** The year 2005 is stored, the year -3 is not. *)
Lemma setYear_rejects_invalid_year_example :
  year (fst (setYear 2005 (new_technology "boiler" 0))) = 2005%Z /\
  fst (setYear (-3) (new_technology "boiler" 1990))
  = new_technology "boiler" 1990.
Proof.
  split.
  - assert (Hpos : (0 < 2005)%Z) by lia.
    exact (proj1 (proj1 (setYear_rejects_invalid_year example_isEqual
                           example_genericInfo (fun d => d)
                           (example_ghg "CO2" 0) "CO2" 2005 "electricity"
                           true None (new_technology "boiler" 0)) Hpos)).
  - assert (Hneg : (-3 <= 0)%Z) by lia.
    exact (proj1 (proj1 (proj2 (setYear_rejects_invalid_year example_isEqual
                                  example_genericInfo (fun d => d)
                                  (example_ghg "CO2" 0) "CO2" (-3)
                                  "electricity" true None
                                  (new_technology "boiler" 1990))) Hneg)).
Defined.

(** After [completeInit] the number of GHG names is the number of GHGs. *)
Lemma getNumbGHGs_counts_ghgs_example :
  getNumbGHGs
    (fst (completeInit example_isEqual example_genericInfo (fun d => d)
            (example_ghg "CO2" 0) "CO2" "electricity" true None
            (new_technology "boiler" 1990)))
  = Z.of_nat
      (length
         (ghg (fst (completeInit example_isEqual example_genericInfo
                      (fun d => d) (example_ghg "CO2" 0) "CO2" "electricity"
                      true None (new_technology "boiler" 1990))))).
Proof.
  apply getNumbGHGs_counts_ghgs.
  exact (proj1 (completeInit_ghg_index example_isEqual example_genericInfo
                  (fun d => d) (example_ghg "CO2" 0) "CO2" "electricity" true
                  None (new_technology "boiler" 1990) eq_refl
                  (new_technology_indexes_ghg "boiler" 1990))).
Defined.

(** [production] twice on the coal technology, at a demand of 10. *)
Lemma production_again_changes_nothing_example :
  exists t' calls,
    production "USA" "electricity" 10 example_gdp 1 example_coalTech
    = Some (t', calls) /\
    production "USA" "electricity" 10 example_gdp 1 t' = Some (t', calls).
Proof.
  assert (Hdmd : 0 <= 10) by lra.
  pose proof (production_run "USA" "electricity" 10 example_gdp 1
                example_coalTech (example_info "coal" 0.5 0) eq_refl Hdmd)
    as Hrun.
  cbv zeta in Hrun. eexists _, _. split; [exact Hrun |].
  exact (proj1 (production_again_changes_nothing "USA" "electricity" 10
                  example_gdp 1 example_coalTech _
                  (example_info "coal" 0.5 0) _ eq_refl Hrun)).
Defined.

(** The technology with two gases: both are told the fuel input. *)
Lemma production_calls_outputs_and_ghgs_example :
  exists t' calls,
    production "USA" "electricity" 10 example_gdp 1 example_twoGasTech
    = Some (t', calls) /\
    GHGCalcEmission 0 "USA" "coal" (input t') 1 ∈ calls /\
    GHGCalcEmission 1 "USA" "coal" (input t') 1 ∈ calls.
Proof.
  assert (Hdmd : 0 <= 10) by lra.
  destruct (production_calls_outputs_and_ghgs "USA" "electricity" 10
              example_gdp 1 example_twoGasTech (example_info "coal" 1 0)
              eq_refl Hdmd) as (t' & calls & Hrun & _ & _ & Hghg).
  exists t', calls. split; [exact Hrun |]. split.
  - exact (Hghg 0%nat (example_ghg "CO2" 7) eq_refl).
  - exact (Hghg 1%nat (example_ghg "CH4" 9) eq_refl).
Defined.

(** [calcEmission] twice on the technology with two gases. *)
Lemma calcEmission_rebuilds_maps_example :
  exists t',
    calcEmission "electricity" 1 example_twoGasTech = Some t' /\
    calcEmission "electricity" 1 t' = Some t'.
Proof.
  eexists. split; [reflexivity |].
  apply (proj2 (calcEmission_rebuilds_maps "electricity" 1 example_twoGasTech
                  ∅ ∅)).
  reflexivity.
Defined.

(** The entries of CH4, the last of the two gases. *)
Lemma calcEmission_emissmap_entries_example :
  exists t',
    calcEmission "electricity" 1 example_twoGasTech = Some t' /\
    is_Some (emissmap t' !! "CO2") /\
    emissmap t' !! "CH4" = Some 3.
Proof.
  destruct (calcEmission_emissmap_entries "electricity" 1 example_twoGasTech
              (example_info "coal" 1 0) eq_refl)
    as (t' & Hrun & Hnames & Hlast).
  exists t'. split; [exact Hrun |]. split.
  - apply (Hnames (example_ghg "CO2" 7)). apply list_elem_of_here.
  - exact (proj1 (Hlast (example_ghg "CH4" 9) eq_refl)).
Defined.

(** A calibrated technology is available, and its output is fixed. *)
Lemma techAvailable_and_outputFixed_example :
  techAvailable example_calibratedTech = true /\
  outputFixed example_calibratedTech = true.
Proof.
  exact (proj2 (proj2 (techAvailable_and_outputFixed example_calibratedTech))
           eq_refl).
Defined.

(** The coal technology has no calibration value: with a share of 0.5 of a
    demand of 100 its weight becomes 0. *)
Lemma adjustForCalibration_without_calibration_zeroes_weight_example :
  exists t' log,
    adjustForCalibration example_per_to_yr false 100 "USA" 1 example_coalTech
    = Some (t', log) /\
    shrwts t' = 0.
Proof.
  assert (Hdemand : 0 < share example_coalTech * 100) by (simpl; lra).
  exact (adjustForCalibration_without_calibration_zeroes_weight
           example_per_to_yr false 100 "USA" 1 example_coalTech eq_refl
           Hdemand).
Defined.

(** Doubling the weight of the coal technology doubles its share. *)
Lemma calcShare_proportional_to_share_weight_example :
  exists t0 t1,
    calcShare "USA" "electricity" example_gdp 1 example_coalTech = Some t0 /\
    calcShare "USA" "electricity" example_gdp 1
      (scaleShareWeight 2 example_coalTech) = Some t1 /\
    share t1 = share t0 * 2.
Proof.
  destruct (calcShare_proportional_to_share_weight example_per_to_yr false
              "USA" "electricity" example_gdp 1 example_coalTech
              (example_info "coal" 0.5 0) 2 eq_refl)
    as (t0 & t1 & Hrun0 & Hrun1 & Hshare & _).
  exists t0, t1. split; [exact Hrun0 |]. split; [exact Hrun1 | exact Hshare].
Defined.

(** A calibration value that asks for a negative input is removed. *)
Lemma initCalc_removes_negative_calibration_example :
  exists t' log calls,
    initCalc example_initCalc "USA" "electricity" 1 example_negativeCalTech
    = Some (t', (log, calls)) /\
    forall per calInput,
      getCalibrationInput example_per_to_yr per t' = Some calInput ->
      0 <= calInput.
Proof.
  destruct (initCalc_removes_negative_calibration example_per_to_yr
              example_initCalc "USA" "electricity" 1 example_negativeCalTech
              (example_info "coal" 1 0) eq_refl)
    as (t' & log & calls & Hrun & Hinput & _).
  exists t', log, calls. split; [exact Hrun | exact Hinput].
Defined.

(** The coal technology, whose output is not fixed, marks the demand for coal
    as not all fixed. *)
Lemma tabulateFixedDemands_counters_example :
  tabulateFixedDemands example_per_to_yr example_getMarketInfo "USA" 1
    example_coalTech
  = Some [SetDouble "calDemand" (-1)].
Proof.
  assert (Hvar : outputFixed example_coalTech = false).
  { unfold outputFixed. simpl.
    destruct (Rle_dec 0 (-1)) as [Hp | _]; [lra |].
    destruct (Req_dec_T 1 0) as [Hz | _]; [lra | reflexivity]. }
  exact (proj1 (proj2 (tabulateFixedDemands_counters example_per_to_yr
                         example_getMarketInfo "USA" 1 example_coalTech
                         (example_info "coal" 0.5 0) eq_refl)
                  (fun _ => -1) eq_refl) Hvar).
Defined.

(** The coal technology has no note: its clone is the same technology. *)
Lemma clone_behaves_as_original_example :
  clone example_coalTech = example_coalTech.
Proof.
  exact (proj1 (proj2 (clone_behaves_as_original 1e-6 1e6 1e6
                         example_getPrice "USA" "electricity" 10 example_gdp
                         1 example_coalTech)) eq_refl).
Defined.

(** Coal at a price of 10 and at a price of 12. *)
Lemma calcCost_monotone_in_fuel_price_example :
  exists t1 log1 t2 log2,
    calcCost 1e-6 1e6 1e6 example_getPrice "USA" "electricity" 1
      example_coalTech = Some (t1, log1) /\
    calcCost 1e-6 1e6 1e6 example_getPrice_high "USA" "electricity" 1
      example_coalTech = Some (t2, log2) /\
    fuelcost t1 <= fuelcost t2 /\
    techcost t1 <= techcost t2.
Proof.
  assert (Hnone : "coal"%string <> "none"%string) by discriminate.
  assert (Hempty : "coal"%string <> ""%string) by discriminate.
  assert (Hren : "coal"%string <> "renewable"%string) by discriminate.
  assert (Hp1 : example_getPrice "coal" "USA" 1 <> 1e6)
    by (unfold example_getPrice; lra).
  assert (Hp2 : example_getPrice_high "coal" "USA" 1 <> 1e6)
    by (unfold example_getPrice_high; lra).
  assert (Hle : example_getPrice "coal" "USA" 1
                <= example_getPrice_high "coal" "USA" 1)
    by (unfold example_getPrice, example_getPrice_high; lra).
  assert (Hmul : 0 <= getFMultiplier (example_info "coal" 0.5 0))
    by (simpl; lra).
  assert (Heff : 0 < info_getEfficiency (example_info "coal" 0.5 0)
                     * (1 - getEffPenalty (example_info "coal" 0.5 0)))
    by (simpl; lra).
  assert (Hpm : 0 <= pMultiplier example_coalTech) by (simpl; lra).
  exact (calcCost_monotone_in_fuel_price 1e-6 1e6 1e6 example_getPrice
           example_getPrice_high "USA" "electricity" 1 example_coalTech
           (example_info "coal" 0.5 0) eq_refl Hnone Hempty Hren Hp1 Hp2 Hle
           Hmul Heff Hpm).
Defined.
